(** * Lead landing: the poll cycle of [main.py]

    A shallow embedding of [src/landing/main.py]: the watermark store
    ([StateManager]), the row source ([GoogleSheetsManager]), the lead sink
    ([DatabaseManager]), the notifier ([NotificationManager]) and the poll
    cycle ([process_submissions]), followed by the properties the
    specification states about them.

    Conventions of the embedding.
    - Python [str] is [string]; cells and column names are only compared.
      [str.isdigit] is embedded for ASCII text only: what is stated about
      the chat id of Telegram is stated for a chat id of ASCII characters.
    - Python [int] is [Z]; [len] is [length] injected with [Z.of_nat].
    - A [dict] is a [gmap]; the submission's insertion order is not kept
      (only its JSON text depends on it, and that text is not modelled).
    - Every call that leaves the process (database, Telegram, SMTP, Sheets
      API, the state file) is recorded in a trace together with its result;
      the result itself comes from an oracle, a value the environment
      chooses.  A failing call raises, as in Python.
    - Exceptions are explicit: a computation is a function from the world
      to a new world and either an exception or a value, and [try]/[except]
      is [try_except].
    - [logger] calls are left out: they return nothing and decide nothing.
    - The state file holds what was last written to it with success. A
      write fails in one of two ways: [open] raises and the file is as it
      was, or the file was opened with mode ['w'], which empties it, and
      the error comes later: what is left is no JSON document. *)

From stdpp Require Import base option list gmap strings.
From Stdlib Require Import ZArith Lia.
From Stdlib Require Import Strings.Ascii.

Local Open Scope Z_scope.

(** ** Data model *)

(** [List[List]] returned by the Sheets API: row 0 is the header. *)
Abbreviation Row := (list string).

(** [submission: Dict], column name to cell value. *)
Abbreviation Submission := (gmap string string).

(** [StateManager.state], composite key to last processed row. *)
Abbreviation Store := (gmap string Z).

(** The exception classes the handlers of [main.py] tell apart. *)
Inductive Exn : Type :=
  | HttpError (status : Z)
  | TelegramError
  | OtherException.

(** [state.json] on disk. *)
Inductive StateFile : Type :=
  | Absent
  | Unreadable
  | Contents (st : Store).

(** Calls that leave the process. *)
Inductive Call : Type :=
  | SheetsGet (sheet_id sheet_name : string)
  | DbConnect
  | DbCreateTable
  | DbInsert (submission : Submission)
  | TgSendMessage (chat_id : Z) (submission : Submission)
  | SmtpConnect (server : string) (port : Z)
  | SmtpLogin (user : string)
  | SmtpSendMessage (from_email to_email : string) (submission : Submission)
  | WriteState (st : Store).

(** One entry of the trace: a submission built by the loop (lines 408-410),
    or a call with [None] when it returned and [Some e] when it raised. *)
Inductive Event : Type :=
  | Built (submission : Submission)
  | Called (c : Call) (raised : option Exn).

Record World : Type := mkWorld {
  file : StateFile;
  trace : list Event
}.

(** How writing [state.json] fails: at [open], before the file is touched,
    or after [open(..., 'w')] has truncated it, in [json.dump] or when the
    file is closed. *)
Inductive WriteError : Type :=
  | OpenRaises (e : Exn)
  | DumpRaises (e : Exn).

Definition exn_of (failure : WriteError) : Exn :=
  match failure with OpenRaises e | DumpRaises e => e end.

(** ** Computations with a world and exceptions *)

Definition M (A : Type) : Type := World → World * (Exn + A).

Definition ret {A} (a : A) : M A := λ w, (w, inr a).

Definition raise {A} (e : Exn) : M A := λ w, (w, inl e).

Definition bind {A B} (k : A → M B) (m : M A) : M B :=
  λ w, match m w with
       | (w', inr a) => k a w'
       | (w', inl e) => (w', inl e)
       end.

#[global] Instance M_ret : MRet M := @ret.
#[global] Instance M_bind : MBind M := @bind.

(** [try: m except <class>: h], where [handles] tells the class. *)
Definition try_except {A} (handles : Exn → bool) (m : M A) (h : Exn → M A) : M A :=
  λ w, match m w with
       | (w', inl e) => if handles e then h e w' else (w', inl e)
       | r => r
       end.

(** [except Exception] *)
Definition Exception (e : Exn) : bool := true.

(** [except HttpError] *)
Definition isHttpError (e : Exn) : bool :=
  match e with HttpError _ => true | _ => false end.

(** [except TelegramError] *)
Definition isTelegramError (e : Exn) : bool :=
  match e with TelegramError => true | _ => false end.

Definition emit (ev : Event) : M unit :=
  λ w, (mkWorld (file w) (trace w ++ [ev]), inr tt).

(** An outside call: recorded with its result, raising when the oracle
    says so. *)
Definition call (c : Call) (result : option Exn) : M unit :=
  emit (Called c result);;
  match result with
  | Some e => raise e
  | None => ret tt
  end.

(** Python truthiness of a [str] and of an [Optional[str]]. *)
Definition truthy (s : string) : bool := negb (bool_decide (s = "")).

Definition truthy_opt (s : option string) : bool :=
  match s with Some s => truthy s | None => false end.

(** ** Config *)

Record SmtpConfig : Type := {
  smtp_server : string;
  smtp_port : Z;
  smtp_user : string;
  smtp_password : string;
  smtp_to : string
}.

(** The values the static getters of [class Config] return; they read the
    process environment, which does not change while the process runs. *)
Record Config : Type := {
  get_sheet_id : string;
  get_sheet_name : string;
  use_postgresql : bool;
  get_telegram_token : option string;
  get_telegram_chat_id : option string;
  get_smtp_config : SmtpConfig
}.

(** ** StateManager *)

Module StateManager.

Record t : Type := mk { state : Store }.

(** [load]: the file's dictionary when it exists and parses, the empty
    dictionary otherwise. *)
Definition load (self : t) : M t :=
  λ w, match file w with
       | Contents st => (w, inr (mk st))
       | Absent => (w, inr self)
       | Unreadable => (w, inr (mk ∅))
       end.

(** [__init__] *)
Definition init : M t := load (mk ∅).

(** Lines 118-119: [open(STATE_FILE, 'w')] truncates the file before
    [json.dump] writes the dictionary. *)
Definition write_file (st : Store) (result : option WriteError) : M unit :=
  λ w, let t := trace w ++ [Called (WriteState st) (exn_of <$> result)] in
       match result with
       | None => (mkWorld (Contents st) t, inr tt)
       | Some (OpenRaises e) => (mkWorld (file w) t, inl e)
       | Some (DumpRaises e) => (mkWorld Unreadable t, inl e)
       end.

(** [save]: the whole dictionary is rewritten; a failure is swallowed. *)
Definition save (self : t) (result : option WriteError) : M unit :=
  try_except Exception (write_file (state self) result) (λ _, ret tt).

Definition key (sheet_id sheet_name : string) : string :=
  sheet_id +:+ ":" +:+ sheet_name.

Definition get_last_row (self : t) (sheet_id sheet_name : string) : Z :=
  default 1 (state self !! key sheet_id sheet_name).

Definition set_last_row (self : t) (sheet_id sheet_name : string) (row : Z)
    (result : option WriteError) : M t :=
  let self' := mk (<[key sheet_id sheet_name := row]> (state self)) in
  save self' result;;
  ret self'.

End StateManager.

(** ** GoogleSheetsManager *)

(** What [spreadsheets().values().get(...).execute()] does: it raises, or
    it returns a dictionary whose ['values'] entry may be missing. *)
Inductive ApiResponse : Type :=
  | ApiRaises (e : Exn)
  | ApiResult (values : option (list Row)).

Module GoogleSheetsManager.

Record t : Type := mk { service : unit }.

(** [authenticate] logs and re-raises whatever goes wrong. *)
Definition authenticate (result : option Exn) : M t :=
  match result with
  | Some e => raise e
  | None => ret (mk tt)
  end.

(** [__init__] *)
Definition init (result : option Exn) : M t := authenticate result.

Definition execute (sheet_id sheet_name : string) (response : ApiResponse)
    : M (option (list Row)) :=
  match response with
  | ApiRaises e => call (SheetsGet sheet_id sheet_name) (Some e);; ret None
  | ApiResult values => call (SheetsGet sheet_id sheet_name) None;; ret values
  end.

(** [get_sheet_data]: [None] stands for Python's [None]. *)
Definition get_sheet_data (self : t) (cfg : Config) (response : ApiResponse)
    : M (option (list Row)) :=
  try_except Exception
    (try_except isHttpError
       (let sheet_id := get_sheet_id cfg in
        let sheet_name := get_sheet_name cfg in
        if negb (truthy sheet_id) then ret None
        else
          result ← execute sheet_id sheet_name response;
          let values := default [] result in
          ret (Some values))
       (λ _, ret None))
    (λ _, ret None).

End GoogleSheetsManager.

(** ** DatabaseManager *)

Module DatabaseManager.

(** [connection] is [true] for a live connection, [false] for [None]. *)
Record t : Type := mk { connection : bool }.

Definition create_table (self : t) (result : option Exn) : M unit :=
  if negb (connection self) then ret tt
  else try_except Exception (call DbCreateTable result) (λ _, ret tt).

Definition connect (connect_result create_result : option Exn) : M t :=
  try_except Exception
    (call DbConnect connect_result;;
     let self := mk true in
     create_table self create_result;;
     ret self)
    (λ _, ret (mk false)).

(** [__init__] *)
Definition init (cfg : Config) (connect_result create_result : option Exn) : M t :=
  if use_postgresql cfg then connect connect_result create_result
  else ret (mk false).

(** [save_lead]: the INSERT carries three fields read from the submission
    and the submission itself as JSON; the event keeps the submission. *)
Definition save_lead (self : t) (submission : Submission) (result : option Exn)
    : M unit :=
  if negb (connection self) then ret tt
  else try_except Exception (call (DbInsert submission) result) (λ _, ret tt).

End DatabaseManager.

(** ** NotificationManager *)

(** The characters of a [str], in order. *)
Fixpoint chars (s : string) : list ascii :=
  match s with
  | EmptyString => []
  | String c rest => c :: chars rest
  end.

(** [str.isdigit] on ASCII text: not empty and every character in 0..9.
    On other text Python also accepts the digits of other scripts; that
    part of [str.isdigit] is not embedded. *)
Definition is_digit (c : ascii) : bool :=
  (48 <=? nat_of_ascii c)%nat && (nat_of_ascii c <=? 57)%nat.

Definition isdigit (s : string) : bool :=
  truthy s && forallb is_digit (chars s).

(** Text of ASCII characters only. *)
Definition ascii_text (s : string) : bool :=
  forallb (λ c, (nat_of_ascii c <? 128)%nat) (chars s).

(** [int(s)] for a string of ASCII decimal digits: its value, or [None]
    for the [ValueError] CPython raises for more than 4300 digits
    ([sys.int_info.default_max_str_digits]). *)
Definition max_str_digits : nat := 4300.

Definition decimal (s : string) : Z :=
  foldl (λ acc c, 10 * acc + (Z.of_nat (nat_of_ascii c) - 48)) 0
        (chars s).

Definition int (s : string) : option Z :=
  if (length (chars s) <=? max_str_digits)%nat then Some (decimal s) else None.

Arguments int : simpl never.

Module NotificationManager.

(** [telegram_bot] is [true] for a [Bot], [false] for [None]. *)
Record t : Type := mk { telegram_bot : bool }.

Definition init_telegram (cfg : Config) (bot_result : option Exn) : M t :=
  let token := get_telegram_token cfg in
  let chat_id := get_telegram_chat_id cfg in
  if truthy_opt token && truthy_opt chat_id then
    try_except Exception
      (match bot_result with
       | Some e => raise e
       | None => ret (mk true)
       end)
      (λ _, ret (mk false))
  else ret (mk false).

(** [__init__] *)
Definition init (cfg : Config) (bot_result : option Exn) : M t :=
  init_telegram cfg bot_result.

(** The inner coroutine [_send]: only [TelegramError] is handled in it,
    so the [ValueError] of [int(chat_id)] leaves it. *)
Definition _send (chat_id : string) (submission : Submission)
    (result : option Exn) : M unit :=
  try_except isTelegramError
    (match int chat_id with
     | None => raise OtherException
     | Some chat => call (TgSendMessage chat submission) result
     end)
    (λ _, ret tt).

(** [send_telegram]; the message text is formatted from the submission
    and the clock, the event keeps the submission. *)
Definition send_telegram (self : t) (cfg : Config) (submission : Submission)
    (result : option Exn) : M unit :=
  if negb (telegram_bot self) then ret tt
  else
    try_except Exception
      (match get_telegram_chat_id cfg with
       | None => ret tt
       | Some chat_id =>
           if negb (truthy chat_id) || negb (isdigit chat_id) then ret tt
           else _send chat_id submission result
       end)
      (λ _, ret tt).

(** [send_email]; [starttls] and [login] are one call, [quit] is not
    recorded. *)
Definition send_email (cfg : Config) (submission : Submission)
    (connect_result login_result send_result : option Exn) : M unit :=
  try_except Exception
    (let config := get_smtp_config cfg in
     let to_email := smtp_to config in
     if negb (truthy to_email) then ret tt
     else
       let from_email :=
         if truthy (smtp_user config) then smtp_user config
         else "noreply@example.com" in
       call (SmtpConnect (smtp_server config) (smtp_port config)) connect_result;;
       (if truthy (smtp_user config) && truthy (smtp_password config)
        then call (SmtpLogin (smtp_user config)) login_result
        else ret tt);;
       call (SmtpSendMessage from_email to_email submission) send_result)
    (λ _, ret tt).

End NotificationManager.

(** ** The poll cycle *)

(** Lines 408-410: [submission[header] = row[j] if j < len(row) else ''],
    for [j, header] in [enumerate(headers)]. *)
Definition cell (row : Row) (j : nat) : string :=
  if bool_decide (j < length row)%nat then default "" (row !! j) else "".

Fixpoint fill (submission : Submission) (j : nat) (headers : Row) (row : Row)
    : Submission :=
  match headers with
  | [] => submission
  | header :: rest => fill (<[header := cell row j]> submission) (S j) rest row
  end.

Definition build_submission (headers row : Row) : Submission :=
  fill ∅ 0%nat headers row.

(** Python's [l[i:]] for any integer [i]. *)
Definition slice_from {A} (l : list A) (i : Z) : list A :=
  let n := Z.of_nat (length l) in
  let start := if i <? 0 then Z.max 0 (n + i) else Z.min i n in
  drop (Z.to_nat start) l.

(** What the environment answers to the calls made for one row. *)
Record RowOracle : Type := {
  insert_result : option Exn;
  telegram_result : option Exn;
  smtp_connect_result : option Exn;
  smtp_login_result : option Exn;
  smtp_send_result : option Exn
}.

(** What the environment answers during one cycle; [row_results i] is for
    the [i]-th new row, counted from 1 as [enumerate(new_rows, 1)] does. *)
Record Oracle : Type := {
  authenticate_result : option Exn;
  sheets_response : ApiResponse;
  db_connect_result : option Exn;
  db_create_table_result : option Exn;
  bot_result : option Exn;
  row_results : nat → RowOracle;
  save_result : option WriteError
}.

(** The loop of lines 405-428, with its counter [processed_count]. *)
Fixpoint process_rows (db : DatabaseManager.t) (notifier : NotificationManager.t)
    (cfg : Config) (headers : Row) (results : nat → RowOracle)
    (i : nat) (new_rows : list Row) (processed_count : nat) : M nat :=
  match new_rows with
  | [] => ret processed_count
  | row :: rest =>
      processed_count ←
        try_except Exception
          (let submission := build_submission headers row in
           emit (Built submission);;
           DatabaseManager.save_lead db submission (insert_result (results i));;
           NotificationManager.send_telegram notifier cfg submission
             (telegram_result (results i));;
           NotificationManager.send_email cfg submission
             (smtp_connect_result (results i)) (smtp_login_result (results i))
             (smtp_send_result (results i));;
           ret (S processed_count))
          (λ _, ret processed_count);
      process_rows db notifier cfg headers results (S i) rest processed_count
  end.

Definition process_submissions (cfg : Config) (o : Oracle) : M unit :=
  try_except Exception
    (state ← StateManager.init;
     sheets ← GoogleSheetsManager.init (authenticate_result o);
     db ← DatabaseManager.init cfg (db_connect_result o) (db_create_table_result o);
     notifier ← NotificationManager.init cfg (bot_result o);
     data ← GoogleSheetsManager.get_sheet_data sheets cfg (sheets_response o);
     match data with
     | None | Some [] => ret tt
     | Some ((headers :: _) as data) =>
         let sheet_id := get_sheet_id cfg in
         let sheet_name := get_sheet_name cfg in
         let last_row := StateManager.get_last_row state sheet_id sheet_name in
         if Z.of_nat (length data) <=? last_row then ret tt
         else
           let new_rows := slice_from data last_row in
           processed_count ←
             process_rows db notifier cfg headers (row_results o) 1 new_rows 0;
           StateManager.set_last_row state sheet_id sheet_name
             (Z.of_nat (length data)) (save_result o);;
           ret tt
     end)
    (λ _, ret tt).

(** [main] after start-up: one cycle at once, then one per timer tick, one
    after the other; every cycle gets its own oracle. *)
Fixpoint run (cfg : Config) (oracles : list Oracle) : M unit :=
  match oracles with
  | [] => ret tt
  | o :: rest => process_submissions cfg o;; run cfg rest
  end.

(** ** Reading a world *)

(** The world a process starts in. *)
Definition start (f : StateFile) : World := mkWorld f [].

(** The watermark a new [StateManager] reads from the file. *)
Definition stored_last_row (f : StateFile) (sheet_id sheet_name : string) : Z :=
  match StateManager.init (start f) with
  | (_, inr state) => StateManager.get_last_row state sheet_id sheet_name
  | (_, inl _) => 1
  end.

(** Submissions the loop built, in order. *)
Definition built (t : list Event) : list Submission :=
  omap (λ ev, match ev with Built s => Some s | _ => None end) t.

(** Lead-sink appends: the INSERTs attempted. *)
Definition is_append (ev : Event) : bool :=
  match ev with Called (DbInsert _) _ => true | _ => false end.

(** Leads that reached storage: the INSERTs that returned. *)
Definition leads (t : list Event) : list Submission :=
  omap (λ ev, match ev with Called (DbInsert s) None => Some s | _ => None end) t.

(** Notifier traffic on either channel. *)
Definition is_dispatch (ev : Event) : bool :=
  match ev with
  | Called (TgSendMessage _ _) _
  | Called (SmtpConnect _ _) _
  | Called (SmtpLogin _) _
  | Called (SmtpSendMessage _ _ _) _ => true
  | _ => false
  end.

(** Writes of the state file, attempted. *)
Definition is_write (ev : Event) : bool :=
  match ev with Called (WriteState _) _ => true | _ => false end.

(** Calls made before the rows are looked at: they touch neither the lead
    table's rows, nor a notification channel, nor the state file. *)
Definition is_setup (ev : Event) : bool :=
  match ev with
  | Called (SheetsGet _ _) _ | Called DbConnect _ | Called DbCreateTable _ => true
  | _ => false
  end.

(** What handling one row may leave in the trace. *)
Definition is_row_event (ev : Event) : bool :=
  match ev with
  | Built _ => true
  | _ => is_append ev || is_dispatch ev
  end.

(** An event that is no lead-sink append, no notifier dispatch and no
    write of the state file. *)
Definition harmless (ev : Event) : Prop :=
  is_append ev = false ∧ is_dispatch ev = false ∧ is_write ev = false.

(** A world with more events and the same file. *)
Definition extend (w : World) (evs : list Event) : World :=
  mkWorld (file w) (trace w ++ evs).

(** The file a write of [st] over [f] leaves. *)
Definition written (result : option WriteError) (st : Store) (f : StateFile)
    : StateFile :=
  match result with
  | None => Contents st
  | Some (OpenRaises _) => f
  | Some (DumpRaises _) => Unreadable
  end.


(** The row set a cycle gets: what [get_sheet_data] returns on the manager
    [GoogleSheetsManager()] built, [None] when either of them fails. *)
Definition fetched (cfg : Config) (o : Oracle) : option (list Row) :=
  match (sheets ← GoogleSheetsManager.init (authenticate_result o);
         GoogleSheetsManager.get_sheet_data sheets cfg (sheets_response o))
          (start Absent) with
  | (_, inr data) => data
  | (_, inl _) => None
  end.

(** The dictionary a new [StateManager] holds after reading the file. *)
Definition stored (f : StateFile) : Store :=
  match StateManager.init (start f) with
  | (_, inr self) => StateManager.state self
  | (_, inl _) => ∅
  end.

(** One poll cycle of a process whose state file is [f]: the world after. *)
Definition cycle (cfg : Config) (o : Oracle) (f : StateFile) : World :=
  fst (process_submissions cfg o (start f)).


(** ** The process environment and [main]

    [class Config] reads [os.environ] on every call; [Env] is that mapping.
    Python's [int] on a [str] is taken as a parameter [py_int], [None] when
    it raises [ValueError]; [os.path.exists] is the parameter
    [path_exists]. *)

Abbreviation Env := (gmap string string) (only parsing).

(** [os.getenv(name, default)] *)
Definition getenv (env : Env) (name default_ : string) : string :=
  default default_ (env !! name).

(** [str.lower] on ASCII text. *)
Definition lower_char (c : ascii) : ascii :=
  let n := nat_of_ascii c in
  if (65 <=? n)%nat && (n <=? 90)%nat then ascii_of_nat (n + 32) else c.

Fixpoint lower (s : string) : string :=
  match s with
  | EmptyString => EmptyString
  | String c rest => String (lower_char c) (lower rest)
  end.

(** The getters of [class Config] on an environment whose [SMTP_PORT] reads
    as [port]. *)
Definition config_of_env (env : Env) (port : Z) : Config :=
  {| get_sheet_id := getenv env "GOOGLE_SHEET_ID" "";
     get_sheet_name := getenv env "GOOGLE_SHEET_NAME" "Form Responses 1";
     use_postgresql := bool_decide (lower (getenv env "USE_POSTGRESQL" "true") = "true");
     get_telegram_token := env !! "TELEGRAM_BOT_TOKEN";
     get_telegram_chat_id := env !! "TELEGRAM_CHAT_ID";
     get_smtp_config :=
       {| smtp_server := getenv env "SMTP_SERVER" "localhost";
          smtp_port := port;
          smtp_user := getenv env "SMTP_USER" "";
          smtp_password := getenv env "SMTP_PASSWORD" "";
          smtp_to := getenv env "EMAIL_TO" "" |} |}.

(** [check_environment]: the variables that must be set, then the file of
    the service account. *)
Definition required : list string :=
  ["GOOGLE_SHEET_ID"; "GOOGLE_APPLICATION_CREDENTIALS"].

Definition check_environment (env : Env) (path_exists : string → bool) : M bool :=
  let missing := filter (λ var, truthy_opt (env !! var) = false) required in
  if negb (bool_decide (missing = [])) then ret false
  else
    match env !! "GOOGLE_APPLICATION_CREDENTIALS" with
    | None => raise OtherException
    | Some sa_path =>
        if negb (path_exists sa_path) then ret false else ret true
    end.

(** How the loop of [main] ends. *)
Inductive LoopEnd : Type :=
  | KeyboardInterrupt
  | UnexpectedError.

(** [main], its result being the exit status. [first] answers the cycle
    run at once, [ticks] the cycles the timer starts before the loop ends;
    the loop ends between two cycles. Line 473 reads the SMTP settings, and
    line 481 the interval, outside any handler. *)
Definition main (py_int : string → option Z) (env : Env)
    (path_exists : string → bool) (first : Oracle) (ticks : list Oracle)
    (stop : LoopEnd) : M Z :=
  match py_int (getenv env "SMTP_PORT" "25") with
  | None => raise OtherException
  | Some port =>
      let cfg := config_of_env env port in
      ok ← check_environment env path_exists;
      if negb ok then ret 1
      else
        match py_int (getenv env "CHECK_INTERVAL" "30") with
        | None => raise OtherException
        | Some interval =>
            process_submissions cfg first;;
            try_except Exception
              (run cfg ticks;;
               match stop with
               | KeyboardInterrupt => ret 0
               | UnexpectedError => raise OtherException
               end)
              (λ _, ret 1)
        end
  end.

(** ** Reading a trace *)

(** What a computation adds to the trace of a process that starts. *)
Definition events_of {A} (m : M A) : list Event :=
  trace (fst (m (start Absent))).

(** What it returns there, [d] when it raises. *)
Definition value_of {A} (d : A) (m : M A) : A :=
  match snd (m (start Absent)) with
  | inr a => a
  | inl _ => d
  end.

(** The managers a cycle builds. *)
Definition db_of (cfg : Config) (o : Oracle) : DatabaseManager.t :=
  value_of (DatabaseManager.mk false)
    (DatabaseManager.init cfg (db_connect_result o) (db_create_table_result o)).

Definition notifier_of (cfg : Config) (o : Oracle) : NotificationManager.t :=
  value_of (NotificationManager.mk false) (NotificationManager.init cfg (bot_result o)).

(** The events of the loop, row by row. *)
Definition row_events (db : DatabaseManager.t) (notifier : NotificationManager.t)
    (cfg : Config) (headers : Row) (ro : RowOracle) (row : Row) : list Event :=
  let submission := build_submission headers row in
  [Built submission]
  ++ events_of (DatabaseManager.save_lead db submission (insert_result ro))
  ++ events_of (NotificationManager.send_telegram notifier cfg submission
                  (telegram_result ro))
  ++ events_of (NotificationManager.send_email cfg submission
                  (smtp_connect_result ro) (smtp_login_result ro)
                  (smtp_send_result ro)).

Fixpoint rows_events (db : DatabaseManager.t) (notifier : NotificationManager.t)
    (cfg : Config) (headers : Row) (results : nat → RowOracle)
    (i : nat) (rows : list Row) : list Event :=
  match rows with
  | [] => []
  | row :: rest =>
      row_events db notifier cfg headers (results i) row
      ++ rows_events db notifier cfg headers results (S i) rest
  end.

(** Submissions of the INSERTs attempted, in order. *)
Definition appended (t : list Event) : list Submission :=
  omap (λ ev, match ev with Called (DbInsert s) _ => Some s | _ => None end) t.

(** Chat id and submission of the Telegram sends attempted, in order. *)
Definition telegrams (t : list Event) : list (Z * Submission) :=
  omap (λ ev, match ev with
              | Called (TgSendMessage chat s) _ => Some (chat, s)
              | _ => None
              end) t.

(** SMTP sessions opened. *)
Definition is_smtp_connect (ev : Event) : bool :=
  match ev with Called (SmtpConnect _ _) _ => true | _ => false end.

Definition smtp_sessions (t : list Event) : nat :=
  length (filter is_smtp_connect t).

(** Submissions of the mails handed to the relay with success, in order. *)
Definition mailed (t : list Event) : list Submission :=
  omap (λ ev, match ev with
              | Called (SmtpSendMessage _ _ s) None => Some s
              | _ => None
              end) t.

(** The elements of [l] whose place, counted from [i], passes [keep]. *)
Fixpoint select {A} (keep : nat → bool) (i : nat) (l : list A) : list A :=
  match l with
  | [] => []
  | x :: rest => (if keep i then [x] else []) ++ select keep (S i) rest
  end.


(** ** A running example

    The end-to-end scenarios of the specification: a sheet with a header and
    the rows of Alice and Bob, a process with every channel switched on. *)

Definition smtp_example : SmtpConfig :=
  {| smtp_server := "localhost"; smtp_port := 25; smtp_user := "";
     smtp_password := ""; smtp_to := "ops@x.com" |}.

Definition cfg_example : Config :=
  {| get_sheet_id := "sheet1"; get_sheet_name := "Form Responses 1";
     use_postgresql := true; get_telegram_token := Some "token";
     get_telegram_chat_id := Some "12345"; get_smtp_config := smtp_example |}.

(** The same process with the chat id of a Telegram group. *)
Definition cfg_group : Config :=
  {| get_sheet_id := "sheet1"; get_sheet_name := "Form Responses 1";
     use_postgresql := true; get_telegram_token := Some "token";
     get_telegram_chat_id := Some "-1001234567890";
     get_smtp_config := smtp_example |}.

Definition rows_example : list Row :=
  [ ["Time"; "Name"; "Email"];
    ["t1"; "Alice"; "a@x.com"];
    ["t2"; "Bob"; "b@x.com"] ].

Definition alice : Submission :=
  {[ "Time" := "t1"; "Name" := "Alice"; "Email" := "a@x.com" ]}.

Definition bob : Submission :=
  {[ "Time" := "t2"; "Name" := "Bob"; "Email" := "b@x.com" ]}.

Definition row_ok : RowOracle :=
  {| insert_result := None; telegram_result := None;
     smtp_connect_result := None; smtp_login_result := None;
     smtp_send_result := None |}.

Definition row_insert_fails : RowOracle :=
  {| insert_result := Some OtherException; telegram_result := None;
     smtp_connect_result := None; smtp_login_result := None;
     smtp_send_result := None |}.

(** Everything answers. *)
Definition oracle_ok : Oracle :=
  {| authenticate_result := None; sheets_response := ApiResult (Some rows_example);
     db_connect_result := None; db_create_table_result := None;
     bot_result := None; row_results := λ _, row_ok; save_result := None |}.

(** The Sheets API answers 403. *)
Definition oracle_denied : Oracle :=
  {| authenticate_result := None; sheets_response := ApiRaises (HttpError 403);
     db_connect_result := None; db_create_table_result := None;
     bot_result := None; row_results := λ _, row_ok; save_result := None |}.

(** The INSERT of the first new row fails. *)
Definition oracle_first_insert_fails : Oracle :=
  {| authenticate_result := None; sheets_response := ApiResult (Some rows_example);
     db_connect_result := None; db_create_table_result := None;
     bot_result := None;
     row_results := λ i, if decide (i = 1%nat) then row_insert_fails else row_ok;
     save_result := None |}.


(** The state file is opened, and writing it fails. *)
Definition oracle_write_fails : Oracle :=
  {| authenticate_result := None; sheets_response := ApiResult (Some rows_example);
     db_connect_result := None; db_create_table_result := None;
     bot_result := None; row_results := λ _, row_ok;
     save_result := Some (DumpRaises OtherException) |}.

(** What handling one row of the example leaves in the trace when every
    call answers. *)
Definition row_trace (s : Submission) : list Event :=
  [ Built s; Called (DbInsert s) None; Called (TgSendMessage 12345 s) None;
    Called (SmtpConnect "localhost" 25) None;
    Called (SmtpSendMessage "noreply@example.com" "ops@x.com" s) None ].

(** The database refuses the connection. *)
Definition oracle_db_down : Oracle :=
  {| authenticate_result := None; sheets_response := ApiResult (Some rows_example);
     db_connect_result := Some OtherException; db_create_table_result := None;
     bot_result := None; row_results := λ _, row_ok; save_result := None |}.

(** The sheet once the row of Carol has arrived. *)
Definition rows_grown : list Row :=
  rows_example ++ [ ["t3"; "Carol"; "c@x.com"] ].

Definition oracle_grown : Oracle :=
  {| authenticate_result := None; sheets_response := ApiResult (Some rows_grown);
     db_connect_result := None; db_create_table_result := None;
     bot_result := None; row_results := λ _, row_ok; save_result := None |}.


Definition int_of_digits (s : string) : option Z :=
  if isdigit s then int s else None.

(** * Properties *)

(** ** Running computations *)

Ltac munfold :=
  unfold mbind, M_bind, bind, ret, raise, try_except, emit, call,
    Exception, extend in *.

Lemma extend_nil w : extend w [] = w.
Proof. destruct w; unfold extend; simpl; by rewrite app_nil_r. Qed.

Lemma extend_extend w evs evs' :
  extend (extend w evs) evs' = extend w (evs ++ evs').
Proof. unfold extend; simpl; by rewrite app_assoc. Qed.

Lemma bind_inr {A B} (m : M A) (k : A → M B) w w' a :
  m w = (w', inr a) → (m ≫= k) w = k a w'.
Proof. intros H. munfold. by rewrite H. Qed.

Lemma bind_inl {A B} (m : M A) (k : A → M B) w w' e :
  m w = (w', inl e) → (m ≫= k) w = (w', inl e).
Proof. intros H. munfold. by rewrite H. Qed.

Lemma try_except_inr {A} handles (m : M A) h w w' a :
  m w = (w', inr a) → try_except handles m h w = (w', inr a).
Proof. intros H. munfold. by rewrite H. Qed.

Lemma try_except_caught {A} (m : M A) h w w' e :
  m w = (w', inl e) → try_except Exception m h w = h e w'.
Proof. intros H. munfold. by rewrite H. Qed.

(** An outside call appends its event, whatever it answers. *)
Lemma call_guarded c r w :
  try_except Exception (call c r) (λ _, ret tt) w = (extend w [Called c r], inr tt).
Proof. munfold. by destruct r. Qed.

(** ** The watermark store *)

Lemma init_stored w :
  StateManager.init w = (w, inr (StateManager.mk (stored (file w)))).
Proof.
  unfold stored, StateManager.init, StateManager.load, start; simpl.
  by destruct (file w).
Qed.

Lemma stored_last_row_lookup f sheet_id sheet_name :
  stored_last_row f sheet_id sheet_name
  = default 1 (stored f !! StateManager.key sheet_id sheet_name).
Proof.
  unfold stored_last_row. rewrite init_stored. reflexivity.
Qed.

Lemma stored_Contents st : stored (Contents st) = st.
Proof. reflexivity. Qed.

Lemma set_last_row_run self sheet_id sheet_name row r w :
  StateManager.set_last_row self sheet_id sheet_name row r w
  = let st := <[StateManager.key sheet_id sheet_name := row]> (StateManager.state self) in
    (mkWorld (written r st (file w))
             (trace w ++ [Called (WriteState st) (exn_of <$> r)]),
     inr (StateManager.mk st)).
Proof.
  unfold StateManager.set_last_row, StateManager.save, StateManager.write_file.
  munfold. by destruct r as [[e|e]|].
Qed.

(** ** The collaborators

    Each method returns without an exception, leaves the state file alone
    and adds to the trace events of its own kind only. *)

Lemma db_init_run cfg a b :
  ∃ db evs, Forall is_setup evs ∧
    ∀ w, DatabaseManager.init cfg a b w = (extend w evs, inr db).
Proof.
  unfold DatabaseManager.init, DatabaseManager.connect, DatabaseManager.create_table.
  destruct (use_postgresql cfg).
  - destruct a as [e|]; [|destruct b as [e|]]; do 2 eexists;
      (split; [|intros w; munfold; simpl; rewrite <- ?app_assoc; reflexivity]);
      repeat constructor.
  - exists (DatabaseManager.mk false), []. split; [constructor|].
    intros w. by rewrite extend_nil.
Qed.

Lemma notifier_init_run cfg r :
  ∃ notifier, ∀ w, NotificationManager.init cfg r w = (w, inr notifier).
Proof.
  unfold NotificationManager.init, NotificationManager.init_telegram.
  destruct (truthy_opt _ && truthy_opt _); [destruct r|]; eexists; intros w;
    munfold; reflexivity.
Qed.

Lemma save_lead_run db submission r :
  ∃ evs, Forall is_append evs ∧
    ∀ w, DatabaseManager.save_lead db submission r w = (extend w evs, inr tt).
Proof.
  unfold DatabaseManager.save_lead. destruct (negb _).
  - exists []. split; [constructor|]. intros w. by rewrite extend_nil.
  - eexists. split; [|intros w; apply call_guarded]. by repeat constructor.
Qed.

Lemma send_telegram_run notifier cfg submission r :
  ∃ evs, Forall is_dispatch evs ∧
    ∀ w, NotificationManager.send_telegram notifier cfg submission r w
         = (extend w evs, inr tt).
Proof.
  unfold NotificationManager.send_telegram, NotificationManager._send.
  destruct (negb (NotificationManager.telegram_bot notifier));
    [|destruct (get_telegram_chat_id cfg) as [chat_id|];
      [destruct (negb (truthy chat_id) || negb (isdigit chat_id))|]].
  1,2,4: exists []; (split; [constructor|]); intros w; munfold; simpl;
    rewrite app_nil_r; by destruct w.
  destruct (int chat_id) as [chat|].
  - exists [Called (TgSendMessage chat submission) r].
    split; [by repeat constructor|].
    intros w. munfold. by destruct r as [[]|].
  - exists []. split; [constructor|]. intros w. munfold. simpl.
    rewrite app_nil_r. by destruct w.
Qed.

Lemma send_email_run cfg submission rc rl rs :
  ∃ evs, Forall is_dispatch evs ∧
    ∀ w, NotificationManager.send_email cfg submission rc rl rs w
         = (extend w evs, inr tt).
Proof.
  unfold NotificationManager.send_email.
  destruct (negb (truthy (smtp_to (get_smtp_config cfg)))).
  { exists []. split; [constructor|]. intros w. munfold. simpl.
    rewrite app_nil_r. by destruct w. }
  destruct (truthy (smtp_user _) && truthy (smtp_password _));
    destruct rc as [ec|]; try destruct rl as [el|]; try destruct rs as [es|];
    eexists; (split; [|intros w; munfold; simpl; rewrite <- ?app_assoc; reflexivity]);
    by repeat constructor.
Qed.

Lemma fetched_None_of_authenticate cfg o e :
  authenticate_result o = Some e → fetched cfg o = None.
Proof. unfold fetched, GoogleSheetsManager.init, GoogleSheetsManager.authenticate.
  intros ->. reflexivity. Qed.

Lemma get_sheet_data_run cfg o :
  authenticate_result o = None →
  ∃ evs, Forall is_setup evs ∧
    ∀ sheets w, GoogleSheetsManager.get_sheet_data sheets cfg (sheets_response o) w
                = (extend w evs, inr (fetched cfg o)).
Proof.
  intros Hauth. unfold fetched, GoogleSheetsManager.init,
    GoogleSheetsManager.authenticate. rewrite Hauth.
  unfold GoogleSheetsManager.get_sheet_data, GoogleSheetsManager.execute.
  destruct (negb (truthy (get_sheet_id cfg))).
  { exists []. split; [constructor|]. intros sheets w. munfold. simpl.
    rewrite app_nil_r. by destruct w. }
  destruct (sheets_response o) as [[]|values];
    eexists; (split; [|intros sheets w; munfold; simpl; reflexivity]);
    by repeat constructor.
Qed.

(** ** The loop over the new rows *)

Lemma built_app t1 t2 : built (t1 ++ t2) = built t1 ++ built t2.
Proof. unfold built. apply omap_app. Qed.

Lemma built_appends evs : Forall is_append evs → built evs = [].
Proof.
  induction 1 as [|ev evs Hev _ IH]; [done|].
  by destruct ev as [|[] ?].
Qed.

Lemma built_dispatches evs : Forall is_dispatch evs → built evs = [].
Proof.
  induction 1 as [|ev evs Hev _ IH]; [done|].
  by destruct ev as [|[] ?].
Qed.

Lemma built_setup evs : Forall is_setup evs → built evs = [].
Proof.
  induction 1 as [|ev evs Hev _ IH]; [done|].
  by destruct ev as [|[] ?].
Qed.

Lemma row_event_of_append evs : Forall is_append evs → Forall is_row_event evs.
Proof. intros H. eapply Forall_impl; [exact H|]. by intros [|[] ?]. Qed.

Lemma row_event_of_dispatch evs : Forall is_dispatch evs → Forall is_row_event evs.
Proof. intros H. eapply Forall_impl; [exact H|]. by intros [|[] ?]. Qed.

(** Every row is handled, whatever the calls made for it answer: the count
    goes up by one per row, one submission is built per row, in order. *)
Lemma process_rows_run db notifier cfg headers results rows :
  ∀ i processed_count w,
  ∃ evs, Forall is_row_event evs ∧
    built evs = build_submission headers <$> rows ∧
    process_rows db notifier cfg headers results i rows processed_count w
    = (extend w evs, inr (processed_count + length rows)%nat).
Proof.
  induction rows as [|row rest IH]; intros i processed_count w.
  - exists []. split; [constructor|]. split; [done|]. simpl.
    rewrite extend_nil, Nat.add_0_r. reflexivity.
  - set (submission := build_submission headers row).
    destruct (save_lead_run db submission (insert_result (results i)))
      as (e1 & F1 & R1).
    destruct (send_telegram_run notifier cfg submission (telegram_result (results i)))
      as (e2 & F2 & R2).
    destruct (send_email_run cfg submission (smtp_connect_result (results i))
                (smtp_login_result (results i)) (smtp_send_result (results i)))
      as (e3 & F3 & R3).
    set (w1 := extend w ([Built submission] ++ e1 ++ e2 ++ e3)).
    destruct (IH (S i) (S processed_count) w1) as (evs & Fr & Br & Rr).
    exists (([Built submission] ++ e1 ++ e2 ++ e3) ++ evs).
    split; [|split].
    + apply Forall_app. split; [|exact Fr].
      apply Forall_cons. split; [done|].
      rewrite !Forall_app.
      auto using row_event_of_append, row_event_of_dispatch.
    + rewrite !built_app, Br, (built_appends e1), (built_dispatches e2),
        (built_dispatches e3) by assumption. reflexivity.
    + simpl process_rows. fold submission.
      erewrite bind_inr.
      2:{ apply try_except_inr.
          erewrite bind_inr by reflexivity.
          erewrite bind_inr by apply R1.
          erewrite bind_inr by apply R2.
          erewrite bind_inr by apply R3.
          reflexivity. }
      change {| file := file w; trace := trace w ++ [Built submission] |}
        with (extend w [Built submission]).
      rewrite !extend_extend. fold w1. rewrite Rr.
      unfold w1. rewrite extend_extend. do 2 f_equal. simpl. lia.
Qed.

(** ** One cycle *)

(** [process_submissions] never lets an exception out. *)
Lemma process_submissions_returns cfg o w :
  snd (process_submissions cfg o w) = inr tt.
Proof.
  unfold process_submissions, try_except, Exception, ret.
  match goal with |- context [match ?m w with _ => _ end] =>
    by destruct (m w) as [w' [e|[]]] end.
Qed.

(** A cycle that finds nothing new: the fetch failed, or the sheet is
    empty, or it has no more rows than the watermark says. *)
Lemma cycle_idle cfg o w :
  fetched cfg o = None ∨ fetched cfg o = Some [] ∨
  (∃ R, fetched cfg o = Some R ∧
        Z.of_nat (length R)
        <= stored_last_row (file w) (get_sheet_id cfg) (get_sheet_name cfg)) →
  ∃ evs, Forall is_setup evs ∧
    process_submissions cfg o w = (extend w evs, inr tt).
Proof.
  intros Hidle. unfold process_submissions.
  destruct (authenticate_result o) as [e|] eqn:Hauth.
  { exists []. split; [constructor|]. rewrite extend_nil.
    erewrite try_except_caught; [reflexivity|].
    erewrite bind_inr by apply init_stored.
    erewrite bind_inl; reflexivity. }
  destruct (db_init_run cfg (db_connect_result o) (db_create_table_result o))
    as (db & e1 & F1 & R1).
  destruct (notifier_init_run cfg (bot_result o)) as (notifier & R2).
  destruct (get_sheet_data_run cfg o Hauth) as (e3 & F3 & R3).
  exists (e1 ++ e3). split; [by apply Forall_app|].
  apply try_except_inr.
  erewrite bind_inr by apply init_stored.
  erewrite bind_inr by reflexivity.
  erewrite bind_inr by apply R1.
  erewrite bind_inr by apply R2.
  erewrite bind_inr by apply R3.
  rewrite extend_extend.
  destruct Hidle as [-> | [-> | (R & -> & Hle)]]; [done..|].
  destruct R as [|headers rest]; [done|].
  rewrite stored_last_row_lookup in Hle. unfold StateManager.get_last_row.
  simpl StateManager.state.
  apply Z.leb_le in Hle. simpl in *. by rewrite Hle.
Qed.

(** A cycle that finds new rows: it handles them all, then writes the
    dictionary with the row count under the configured key. *)
Lemma cycle_active cfg o w R :
  fetched cfg o = Some R → R ≠ [] →
  stored_last_row (file w) (get_sheet_id cfg) (get_sheet_name cfg)
  < Z.of_nat (length R) →
  ∃ pre rows, Forall is_setup pre ∧ Forall is_row_event rows ∧
    built rows
    = build_submission (default [] (head R))
      <$> slice_from R (stored_last_row (file w) (get_sheet_id cfg) (get_sheet_name cfg)) ∧
    process_submissions cfg o w
    = let st := <[StateManager.key (get_sheet_id cfg) (get_sheet_name cfg)
                  := Z.of_nat (length R)]> (stored (file w)) in
      (mkWorld (written (save_result o) st (file w))
               (trace w ++ pre ++ rows ++ [Called (WriteState st) (exn_of <$> save_result o)]),
       inr tt).
Proof.
  intros Hfetch Hne Hlt. unfold process_submissions.
  destruct (authenticate_result o) as [e|] eqn:Hauth.
  { by rewrite (fetched_None_of_authenticate cfg o e) in Hfetch. }
  destruct (db_init_run cfg (db_connect_result o) (db_create_table_result o))
    as (db & e1 & F1 & R1).
  destruct (notifier_init_run cfg (bot_result o)) as (notifier & R2).
  destruct (get_sheet_data_run cfg o Hauth) as (e3 & F3 & R3).
  rewrite Hfetch in R3.
  destruct R as [|headers rest]; [done|].
  set (W := stored_last_row (file w) (get_sheet_id cfg) (get_sheet_name cfg)) in *.
  destruct (process_rows_run db notifier cfg headers (row_results o)
              (slice_from (headers :: rest) W) 1%nat 0%nat (extend w (e1 ++ e3)))
    as (rows & Fr & Br & Rr).
  exists (e1 ++ e3), rows. split; [by apply Forall_app|]. split; [done|].
  split; [exact Br|].
  apply try_except_inr.
  erewrite bind_inr by apply init_stored.
  erewrite bind_inr by reflexivity.
  erewrite bind_inr by apply R1.
  erewrite bind_inr by apply R2.
  erewrite bind_inr by apply R3.
  rewrite extend_extend.
  assert (StateManager.get_last_row (StateManager.mk (stored (file w)))
            (get_sheet_id cfg) (get_sheet_name cfg) = W) as HW.
  { unfold W. by rewrite stored_last_row_lookup. }
  rewrite HW.
  apply Z.leb_gt in Hlt. rewrite Hlt.
  erewrite bind_inr by apply Rr.
  erewrite bind_inr by apply set_last_row_run.
  unfold ret, extend. simpl. by rewrite <- !app_assoc.
Qed.

Lemma harmless_setup evs : Forall is_setup evs → Forall harmless evs.
Proof. intros H. eapply Forall_impl; [exact H|]. by intros [|[] ?]. Qed.

Lemma no_write_row_events evs :
  Forall is_row_event evs → Forall (λ ev, is_write ev = false) evs.
Proof. intros H. eapply Forall_impl; [exact H|]. by intros [|[] ?]. Qed.

Lemma slice_from_nat {A} (l : list A) (n : nat) :
  slice_from l (Z.of_nat n) = drop n l.
Proof.
  unfold slice_from.
  destruct (Z.ltb_spec (Z.of_nat n) 0) as [?|_]; [lia|].
  destruct (Nat.le_gt_cases n (length l)) as [Hle|Hgt].
  - rewrite Z.min_l by lia. by rewrite Nat2Z.id.
  - rewrite Z.min_r by lia. rewrite Nat2Z.id.
    rewrite !drop_ge; [done|lia|lia].
Qed.

(** [slice_from] follows Python also outside the range of row counts: a
    negative index counts from the end, a large one gives the empty list. *)
Example slice_from_python :
  slice_from [1; 2; 3] (-1) = [3] ∧ slice_from [1; 2; 3] (-7) = [1; 2; 3] ∧
  slice_from [1; 2; 3] 1 = [2; 3] ∧ slice_from [1; 2; 3] 5 = [].
Proof. repeat split. Qed.

Lemma stored_last_row_insert st sheet_id sheet_name row :
  stored_last_row (Contents (<[StateManager.key sheet_id sheet_name := row]> st))
    sheet_id sheet_name = row.
Proof.
  rewrite stored_last_row_lookup, stored_Contents.
  by rewrite lookup_insert_eq.
Qed.

Lemma cycle_unfold cfg o f :
  process_submissions cfg o (start f) = (cycle cfg o f, inr tt).
Proof.
  unfold cycle. pose proof (process_submissions_returns cfg o (start f)) as H.
  destruct (process_submissions cfg o (start f)) as [w r]. simpl in *. by subst.
Qed.

(** A failing API call, whatever the exception, is a failed fetch. *)
Lemma fetched_None_of_raise cfg o e :
  sheets_response o = ApiRaises e → fetched cfg o = None.
Proof.
  intros Hr. unfold fetched, GoogleSheetsManager.init,
    GoogleSheetsManager.authenticate, GoogleSheetsManager.get_sheet_data,
    GoogleSheetsManager.execute.
  rewrite Hr. destruct (authenticate_result o); [done|].
  munfold. destruct (negb _); [done|]. simpl. by destruct e.
Qed.

(** ** The claims about one cycle *)

(** C2. For every fetched row set R with len(R) <= W, W the stored
    watermark, one cycle makes no lead-sink append, no notifier dispatch on
    any channel and no write of the state file, builds no submission, and
    leaves the stored watermark of every key as it was. *)
Theorem C2_no_new_rows_no_effect cfg o f (R : list Row) :
  fetched cfg o = Some R →
  Z.of_nat (length R) <= stored_last_row f (get_sheet_id cfg) (get_sheet_name cfg) →
  let w := cycle cfg o f in
  Forall harmless (trace w) ∧ built (trace w) = [] ∧ file w = f ∧
  ∀ sheet_id sheet_name,
    stored_last_row (file w) sheet_id sheet_name = stored_last_row f sheet_id sheet_name.
Proof.
  intros Hfetch Hle w.
  destruct (cycle_idle cfg o (start f)) as (evs & Fevs & Hrun).
  { right; right. by exists R. }
  rewrite cycle_unfold in Hrun. fold w in Hrun. injection Hrun as ->.
  simpl. auto using harmless_setup, built_setup.
Qed.

(** C8. When the fetch fails (the manager cannot be built, the sheet id is
    missing, the API call raises: access denied, not found, anything else)
    or returns no row, the cycle makes no lead-sink append, no notifier
    dispatch and no write of the state file, and the file is what it was. *)
Theorem C8_fetch_failure_no_effect cfg o f :
  fetched cfg o = None ∨ fetched cfg o = Some [] →
  let w := cycle cfg o f in
  Forall harmless (trace w) ∧ built (trace w) = [] ∧ file w = f.
Proof.
  intros Hfetch w.
  destruct (cycle_idle cfg o (start f)) as (evs & Fevs & Hrun).
  { destruct Hfetch; auto. }
  rewrite cycle_unfold in Hrun. fold w in Hrun. injection Hrun as ->.
  simpl. auto using harmless_setup, built_setup.
Qed.

(** ** Building a submission *)

Lemma fill_lookup_notin submission j headers row (name : string) :
  name ∉ headers → fill submission j headers row !! name = submission !! name.
Proof.
  revert submission j.
  induction headers as [|header rest IH]; intros submission j Hnotin; [done|].
  apply not_elem_of_cons in Hnotin as [Hne Hrest]. simpl.
  rewrite IH by done. by rewrite lookup_insert_ne.
Qed.

(** The value kept for a name is the cell at the last place the name has
    in the header. *)
Lemma fill_lookup_last submission j headers row (name : string) (i : nat) :
  headers !! i = Some name →
  (∀ i', (i < i')%nat → headers !! i' ≠ Some name) →
  fill submission j headers row !! name = Some (cell row (j + i)).
Proof.
  revert submission j i.
  induction headers as [|header rest IH]; intros submission j i Hi Hlast; [done|].
  destruct i as [|i]; simpl in *.
  - injection Hi as ->. rewrite fill_lookup_notin.
    + by rewrite lookup_insert_eq, Nat.add_0_r.
    + intros (i' & Hi')%list_elem_of_lookup.
      apply (Hlast (S i')); [lia|done].
  - rewrite (IH _ (S j) i Hi).
    + do 2 f_equal. lia.
    + intros i' Hlt. apply (Hlast (S i')). lia.
Qed.

Lemma last_occurrence (headers : Row) (name : string) :
  name ∈ headers →
  ∃ i, headers !! i = Some name ∧
       ∀ i', (i < i')%nat → headers !! i' ≠ Some name.
Proof.
  induction headers as [|header rest IH]; intros Hin; [by apply elem_of_nil in Hin|].
  destruct (decide (name ∈ rest)) as [Hrest|Hrest].
  - destruct (IH Hrest) as (i & Hi & Hlast). exists (S i). split; [done|].
    intros [|i'] Hlt; [lia|]. apply Hlast. lia.
  - apply elem_of_cons in Hin as [->|?]; [|done].
    exists 0%nat. split; [done|].
    intros [|i'] Hlt; [lia|]. simpl. intros Hi'.
    apply Hrest. by eapply list_elem_of_lookup_2.
Qed.

Lemma fill_dom submission j headers row :
  dom (fill submission j headers row) = dom submission ∪ list_to_set headers.
Proof.
  revert submission j.
  induction headers as [|header rest IH]; intros submission j; simpl.
  - set_solver.
  - rewrite IH, dom_insert_L. set_solver.
Qed.

(** Only the cells under the header are read. *)
Lemma fill_ext submission j headers row row' :
  (∀ i, (i < length headers)%nat → cell row (j + i) = cell row' (j + i)) →
  fill submission j headers row = fill submission j headers row'.
Proof.
  revert submission j.
  induction headers as [|header rest IH]; intros submission j Hcells; [done|].
  simpl. rewrite <- (Nat.add_0_r j) at 1 3.
  rewrite (Hcells 0%nat) by (simpl; lia). rewrite Nat.add_0_r.
  apply IH. intros i Hi. replace (S j + i)%nat with (j + S i)%nat by lia.
  apply Hcells. simpl. lia.
Qed.

Lemma cell_in_range row j :
  (j < length row)%nat → row !! j = Some (cell row j).
Proof.
  intros Hlt. unfold cell. rewrite bool_decide_eq_true_2 by done.
  destruct (lookup_lt_is_Some_2 row j Hlt) as [c ->]. done.
Qed.

Lemma cell_out_of_range row j :
  (length row ≤ j)%nat → cell row j = "".
Proof.
  intros Hge. unfold cell. rewrite bool_decide_eq_false_2; [done|lia].
Qed.

(** The specification's example: header [A,B,C], row [x,y]. *)
Example submission_short_row :
  build_submission ["A"; "B"; "C"] ["x"; "y"]
  = {[ "A" := "x"; "B" := "y"; "C" := "" ]}.
Proof. reflexivity. Qed.

(** C3, as stated, fails when a column name occurs twice: with header
    [A,B,A] and row [x,y] the name A = H[0] is not mapped to r[0] = x but to
    the empty string, the cell under the second A. *)
Lemma C3_counterexample :
  ¬ (∀ (H r : Row) (j : nat) (name : string),
       (length r < length H)%nat →
       H !! j = Some name →
       build_submission H r !! name = Some (cell r j)).
Proof.
  intros claim.
  specialize (claim ["A"; "B"; "A"] ["x"; "y"] 0%nat "A").
  simpl in claim. specialize (claim ltac:(lia) eq_refl).
  vm_compute in claim. discriminate claim.
Qed.

(** C3, amended. For every header H and row r with len(r) < len(H), the
    submission maps a column name to the cell under the last column of that
    name: with j the last index such that H[j] is the name, to r[j] when
    j < len(r) and to the empty string when j >= len(r). *)
Theorem C3_missing_cells_empty (H r : Row) (j : nat) (name : string) :
  (length r < length H)%nat →
  H !! j = Some name →
  (∀ j', (j < j')%nat → H !! j' ≠ Some name) →
  ((j < length r)%nat → build_submission H r !! name = r !! j) ∧
  ((length r ≤ j)%nat → build_submission H r !! name = Some "").
Proof.
  intros _ Hj Hlast. unfold build_submission.
  rewrite (fill_lookup_last ∅ 0%nat H r name j Hj Hlast). simpl.
  split; intros Hcmp.
  - by rewrite cell_in_range.
  - by rewrite cell_out_of_range.
Qed.

(** When the column names are pairwise distinct, every H[j] is mapped to the
    cell under it, as C3 has it. *)
Lemma build_submission_NoDup (H r : Row) (j : nat) (name : string) :
  NoDup H → H !! j = Some name →
  build_submission H r !! name = Some (cell r j).
Proof.
  intros Hnodup Hj. unfold build_submission.
  rewrite (fill_lookup_last ∅ 0%nat H r name j Hj); [done|].
  intros j' Hlt Hj'.
  pose proof (NoDup_lookup H j j' name Hnodup Hj Hj'). lia.
Qed.

(** C10. For every header H and row r with len(r) > len(H), the cells
    r[len(H):] are dropped: the submission is the one built from the first
    len(H) cells, its keys are exactly the names in H, and every value is
    the cell r[j] under the last column j < len(H) that bears the name. *)
Theorem C10_extra_cells_dropped (H r : Row) :
  (length H < length r)%nat →
  build_submission H r = build_submission H (take (length H) r) ∧
  dom (build_submission H r) = list_to_set H ∧
  ∀ name v, build_submission H r !! name = Some v →
    ∃ j, (j < length H)%nat ∧ H !! j = Some name ∧ r !! j = Some v ∧
         ∀ j', (j < j')%nat → H !! j' ≠ Some name.
Proof.
  intros Hlen. unfold build_submission. split; [|split].
  - apply fill_ext. intros i Hi. simpl. unfold cell.
    rewrite length_take, lookup_take_lt by done.
    rewrite !bool_decide_eq_true_2; [done|lia|lia].
  - rewrite fill_dom. set_solver.
  - intros name v Hv.
    destruct (decide (name ∈ H)) as [Hin|Hnotin].
    + destruct (last_occurrence H name Hin) as (j & Hj & Hlast).
      pose proof (lookup_lt_Some _ _ _ Hj) as Hjlt.
      rewrite (fill_lookup_last ∅ 0%nat H r name j Hj Hlast) in Hv.
      injection Hv as <-. exists j. simpl.
      split; [done|]. split; [done|]. split; [|done].
      apply cell_in_range. lia.
    + by rewrite fill_lookup_notin in Hv.
Qed.

(** ** The rows of one cycle *)

Lemma cell_default (row : Row) (j : nat) : cell row j = default "" (row !! j).
Proof.
  unfold cell. case_bool_decide as Hlt; [done|].
  by rewrite lookup_ge_None_2 by lia.
Qed.

(** The submission as a zip: its keys are the names of the header, and a
    name is mapped to the cell under the last column that bears it, the
    empty string when the row has no such cell. *)
Lemma build_submission_zip (H r : Row) :
  dom (build_submission H r) = list_to_set H ∧
  ∀ j name, H !! j = Some name →
    (∀ j', (j < j')%nat → H !! j' ≠ Some name) →
    build_submission H r !! name = Some (default "" (r !! j)).
Proof.
  unfold build_submission. split.
  - rewrite fill_dom. set_solver.
  - intros j name Hj Hlast.
    by rewrite (fill_lookup_last ∅ 0%nat H r name j Hj Hlast), cell_default.
Qed.

(** What one cycle builds and where it leaves the file, for a watermark
    that is a row count. *)
Lemma cycle_built cfg o w (R : list Row) (W : nat) :
  fetched cfg o = Some R →
  stored_last_row (file w) (get_sheet_id cfg) (get_sheet_name cfg) = Z.of_nat W →
  let w' := fst (process_submissions cfg o w) in
  let st := <[StateManager.key (get_sheet_id cfg) (get_sheet_name cfg)
              := Z.of_nat (length R)]> (stored (file w)) in
  built (trace w')
  = built (trace w) ++ (build_submission (default [] (head R)) <$> drop W R) ∧
  file w' = (if bool_decide (W < length R)%nat
             then written (save_result o) st (file w) else file w) ∧
  ((W < length R)%nat →
   last (trace w') = Some (Called (WriteState st) (exn_of <$> save_result o))).
Proof.
  intros Hfetch HW w' st. unfold w'. case_bool_decide as Hlt.
  - assert (R ≠ []) as Hne by (intros ->; simpl in Hlt; lia).
    destruct (cycle_active cfg o w R Hfetch Hne) as
      (pre & rows & Fpre & Frows & Hbuilt & ->).
    { rewrite HW. lia. }
    rewrite HW, slice_from_nat in Hbuilt. simpl. fold st. split; [|split].
    + rewrite !built_app, (built_setup pre Fpre), Hbuilt.
      simpl. by rewrite app_nil_r.
    + done.
    + intros _. rewrite !app_assoc. apply last_snoc.
  - destruct (cycle_idle cfg o w) as (evs & Fevs & ->).
    { destruct R as [|row R']; [auto|]. right; right.
      eexists. split; [done|]. rewrite HW. lia. }
    simpl. rewrite built_app, (built_setup evs Fevs), drop_ge by lia.
    split; [done|]. split; [done|]. intros Hlt'. lia.
Qed.

(** C1, as stated, fails when the write of the state file fails: every
    row is handled, and the watermark a new [StateManager] reads is not
    len(R). *)
Lemma C1_counterexample :
  ¬ (∀ cfg o f (R : list Row) (W : nat),
       fetched cfg o = Some R →
       stored_last_row f (get_sheet_id cfg) (get_sheet_name cfg) = Z.of_nat W →
       (W < length R)%nat →
       stored_last_row (file (cycle cfg o f)) (get_sheet_id cfg) (get_sheet_name cfg)
       = Z.of_nat (length R)).
Proof.
  intros claim.
  specialize (claim cfg_example oracle_write_fails Absent rows_example 1%nat
                eq_refl eq_refl).
  simpl in claim. specialize (claim ltac:(lia)).
  vm_compute in claim. discriminate claim.
Qed.

(** C1, amended. For every fetched row set R and stored watermark W (a row
    count) with len(R) > W, one cycle builds exactly len(R) - W
    submissions, the i-th from the row R[W + i]: its keys are the names in
    the header R[0], and a name is mapped to the cell of that row under the
    last column bearing the name, the empty string where the row is too
    short.  Whatever the calls made for the rows answer, the cycle ends by
    writing the dictionary that holds len(R) under the configured key; when
    that write succeeds, the stored watermark is len(R). *)
Theorem C1_new_rows_all_processed cfg o f (R : list Row) (W : nat) :
  fetched cfg o = Some R →
  stored_last_row f (get_sheet_id cfg) (get_sheet_name cfg) = Z.of_nat W →
  (W < length R)%nat →
  let w := cycle cfg o f in
  let k := StateManager.key (get_sheet_id cfg) (get_sheet_name cfg) in
  let H := default [] (R !! 0%nat) in
  length (built (trace w)) = (length R - W)%nat ∧
  (∀ i row, R !! (W + i)%nat = Some row →
     ∃ s, built (trace w) !! i = Some s ∧
          dom s = list_to_set H ∧
          ∀ j name, H !! j = Some name →
            (∀ j', (j < j')%nat → H !! j' ≠ Some name) →
            s !! name = Some (default "" (row !! j))) ∧
  (∃ st, last (trace w) = Some (Called (WriteState st) (exn_of <$> save_result o)) ∧
         st !! k = Some (Z.of_nat (length R))) ∧
  (save_result o = None →
   stored_last_row (file w) (get_sheet_id cfg) (get_sheet_name cfg)
   = Z.of_nat (length R)).
Proof.
  intros Hfetch HW Hlt w k H.
  destruct (cycle_built cfg o (start f) R W Hfetch HW) as (Hb & Hfile & Hlast).
  fold (cycle cfg o f) in Hb, Hfile, Hlast. fold w in Hb, Hfile, Hlast.
  simpl in Hb. rewrite bool_decide_eq_true_2 in Hfile by done.
  replace (default [] (head R)) with H in Hb by (unfold H; by destruct R).
  split; [|split; [|split]].
  - by rewrite Hb, length_fmap, length_drop.
  - intros i row Hrow. exists (build_submission H row). split.
    + by rewrite Hb, list_lookup_fmap, lookup_drop, Hrow.
    + apply build_submission_zip.
  - eexists. split; [by apply Hlast|]. by rewrite lookup_insert_eq.
  - intros Hsave. rewrite Hfile, Hsave. simpl. apply stored_last_row_insert.
Qed.

(** ** Sequences of cycles *)







(** C5. Key isolation: for two distinct composite keys, [set_last_row] on
    the first leaves what [get_last_row] returns for the second unchanged,
    on the same object and, when the write succeeds and the object mirrors
    the file, for an object built from the file afterwards. *)
Theorem C5_key_isolation self id1 name1 id2 name2 row r w :
  StateManager.key id1 name1 ≠ StateManager.key id2 name2 →
  ∃ w' self',
    StateManager.set_last_row self id1 name1 row r w = (w', inr self') ∧
    StateManager.get_last_row self' id2 name2
    = StateManager.get_last_row self id2 name2 ∧
    (r = None →
     StateManager.state self = stored (file w) →
     stored_last_row (file w') id2 name2 = stored_last_row (file w) id2 name2).
Proof.
  intros Hne. rewrite set_last_row_run. do 2 eexists. split; [reflexivity|].
  unfold StateManager.get_last_row. simpl.
  rewrite lookup_insert_ne by done. split; [done|].
  intros -> Hmirror. simpl.
  rewrite !stored_last_row_lookup, stored_Contents.
  by rewrite lookup_insert_ne, Hmirror by done.
Qed.




(** ** The Telegram channel *)

Lemma isdigit_all_digits s : isdigit s = true → Forall is_digit (chars s) ∧ s ≠ "".
Proof.
  unfold isdigit, truthy. intros [Hne Hall]%andb_true_iff. split.
  - apply Forall_forall. intros c Hc. apply Is_true_true.
    rewrite forallb_forall in Hall. apply Hall. by apply list_elem_of_In.
  - apply negb_true_iff, bool_decide_eq_false in Hne. done.
Qed.

Lemma isdigit_non_digit s c :
  c ∈ chars s → is_digit c = false → isdigit s = false.
Proof.
  intros Hc Hnd. destruct (isdigit s) eqn:E; [|done].
  apply isdigit_all_digits in E as [Hall _].
  rewrite Forall_forall in Hall. apply Hall, Is_true_true in Hc. congruence.
Qed.

Ltac nothing_sent :=
  exists []; rewrite extend_nil; split; [done|];
  intros ev Hin; by apply elem_of_nil in Hin.

(** C9. For a chat id of ASCII characters: when the chat id is absent or
    contains a character that is not a digit (a leading minus sign, say),
    [send_telegram] sends nothing and returns normally, bot or no bot; and
    whatever [send_telegram] adds to the trace is a send to [int(chat_id)]
    for a chat id made of digits only. *)
Theorem C9_chat_id_must_be_digits notifier cfg submission r w :
  (∀ s, get_telegram_chat_id cfg = Some s → ascii_text s = true) →
  (get_telegram_chat_id cfg = None ∨
   (∃ s c, get_telegram_chat_id cfg = Some s ∧ c ∈ chars s ∧ is_digit c = false) →
   NotificationManager.send_telegram notifier cfg submission r w = (w, inr tt)) ∧
  (∃ evs,
     NotificationManager.send_telegram notifier cfg submission r w
     = (extend w evs, inr tt) ∧
     ∀ ev, ev ∈ evs →
       ∃ s chat, get_telegram_chat_id cfg = Some s ∧ s ≠ "" ∧
                 Forall is_digit (chars s) ∧ int s = Some chat ∧
                 ev = Called (TgSendMessage chat submission) r).
Proof.
  intros _.
  unfold NotificationManager.send_telegram, NotificationManager._send.
  split.
  - intros Hbad. destruct (negb (NotificationManager.telegram_bot notifier)); [done|].
    destruct Hbad as [->|(s & c & -> & Hc & Hnd)]; [done|].
    rewrite (isdigit_non_digit s c Hc Hnd), orb_true_r. done.
  - destruct (negb (NotificationManager.telegram_bot notifier)); [nothing_sent|].
    destruct (get_telegram_chat_id cfg) as [s|]; [|nothing_sent].
    destruct (isdigit s) eqn:Hd.
    + apply isdigit_all_digits in Hd as [Hall Hne].
      unfold truthy. rewrite bool_decide_eq_false_2 by done. simpl.
      destruct (int s) as [chat|] eqn:Hint.
      * exists [Called (TgSendMessage chat submission) r]. split.
        { munfold. by destruct r as [[]|]. }
        intros ev ->%list_elem_of_singleton. by exists s, chat.
      * nothing_sent.
    + rewrite orb_true_r. nothing_sent.
Qed.

(** ** The scenarios of the specification *)

(** Header, Alice, Bob, watermark 1: both rows are handled in order, sink
    and notifier are called for each, the watermark becomes 3. *)
Example scenario_two_new_rows :
  process_submissions cfg_example oracle_ok (start Absent)
  = (mkWorld (Contents {[ "sheet1:Form Responses 1" := 3 ]})
       ([Called DbConnect None; Called DbCreateTable None;
         Called (SheetsGet "sheet1" "Form Responses 1") None]
        ++ row_trace alice ++ row_trace bob
        ++ [Called (WriteState {[ "sheet1:Form Responses 1" := 3 ]}) None]),
     inr tt).
Proof. vm_compute. reflexivity. Qed.

(** The fetch is denied: nothing but set-up calls, the file is untouched. *)
Example scenario_access_denied :
  process_submissions cfg_example oracle_denied (start Absent)
  = (mkWorld Absent
       [Called DbConnect None; Called DbCreateTable None;
        Called (SheetsGet "sheet1" "Form Responses 1") (Some (HttpError 403))],
     inr tt).
Proof. vm_compute. reflexivity. Qed.

(** The INSERT fails for Alice and succeeds for Bob: only Bob reaches the
    lead storage, both are notified, the watermark becomes 3. *)
Example scenario_first_insert_fails :
  let w := cycle cfg_example oracle_first_insert_fails Absent in
  leads (trace w) = [bob] ∧
  built (trace w) = [alice; bob] ∧
  filter is_dispatch (trace w)
  = filter is_dispatch (row_trace alice ++ row_trace bob) ∧
  stored_last_row (file w) "sheet1" "Form Responses 1" = 3.
Proof. vm_compute. repeat split; reflexivity. Qed.


Example scenario_write_fails_rows_handled_again :
  built (trace (fst (run cfg_example [oracle_write_fails; oracle_write_fails]
                       (start Absent))))
  = [alice; bob; alice; bob].
Proof. vm_compute. reflexivity. Qed.

(** ** The claims at the running example *)

Lemma C1_witness :
  let w := cycle cfg_example oracle_first_insert_fails Absent in
  let k := StateManager.key "sheet1" "Form Responses 1" in
  let H := default [] (rows_example !! 0%nat) in
  length (built (trace w)) = (length rows_example - 1)%nat ∧
  (∀ i row, rows_example !! (1 + i)%nat = Some row →
     ∃ s, built (trace w) !! i = Some s ∧
          dom s = list_to_set H ∧
          ∀ j name, H !! j = Some name →
            (∀ j', (j < j')%nat → H !! j' ≠ Some name) →
            s !! name = Some (default "" (row !! j))) ∧
  (∃ st, last (trace w)
         = Some (Called (WriteState st)
                   (exn_of <$> save_result oracle_first_insert_fails)) ∧
         st !! k = Some (Z.of_nat (length rows_example))) ∧
  (save_result oracle_first_insert_fails = None →
   stored_last_row (file w) "sheet1" "Form Responses 1"
   = Z.of_nat (length rows_example)).
Proof.
  apply (C1_new_rows_all_processed cfg_example oracle_first_insert_fails Absent
           rows_example 1%nat); [reflexivity|reflexivity|simpl; lia].
Defined.

Lemma C2_witness :
  let f := Contents {[ "sheet1:Form Responses 1" := 3 ]} in
  let w := cycle cfg_example oracle_ok f in
  Forall harmless (trace w) ∧ built (trace w) = [] ∧ file w = f ∧
  ∀ sheet_id sheet_name,
    stored_last_row (file w) sheet_id sheet_name = stored_last_row f sheet_id sheet_name.
Proof.
  apply (C2_no_new_rows_no_effect cfg_example oracle_ok
           (Contents {[ "sheet1:Form Responses 1" := 3 ]}) rows_example);
    [reflexivity|vm_compute; discriminate].
Defined.

Lemma C3_witness :
  ((2 < 2)%nat → build_submission ["A"; "B"; "C"] ["x"; "y"] !! "C"
                 = ["x"; "y"] !! 2%nat) ∧
  ((2 ≤ 2)%nat → build_submission ["A"; "B"; "C"] ["x"; "y"] !! "C" = Some "").
Proof.
  apply (C3_missing_cells_empty ["A"; "B"; "C"] ["x"; "y"] 2%nat "C");
    [simpl; lia|reflexivity|].
  intros [|[|[|j']]] Hlt; simpl; try lia; discriminate.
Defined.


Lemma C5_witness :
  ∃ w' self',
    StateManager.set_last_row (StateManager.mk {[ "sheet2:Leads" := 7 ]})
      "sheet1" "Form Responses 1" 3 None (start (Contents {[ "sheet2:Leads" := 7 ]}))
    = (w', inr self') ∧
    StateManager.get_last_row self' "sheet2" "Leads"
    = StateManager.get_last_row (StateManager.mk {[ "sheet2:Leads" := 7 ]})
        "sheet2" "Leads" ∧
    (@None WriteError = None →
     StateManager.state (StateManager.mk {[ "sheet2:Leads" := 7 ]})
     = stored (file (start (Contents {[ "sheet2:Leads" := 7 ]}))) →
     stored_last_row (file w') "sheet2" "Leads"
     = stored_last_row (file (start (Contents {[ "sheet2:Leads" := 7 ]})))
         "sheet2" "Leads").
Proof.
  apply (C5_key_isolation (StateManager.mk {[ "sheet2:Leads" := 7 ]})
           "sheet1" "Form Responses 1" "sheet2" "Leads" 3 None
           (start (Contents {[ "sheet2:Leads" := 7 ]}))).
  vm_compute. discriminate.
Defined.



Lemma C8_witness :
  let w := cycle cfg_example oracle_denied Absent in
  Forall harmless (trace w) ∧ built (trace w) = [] ∧ file w = Absent.
Proof.
  apply (C8_fetch_failure_no_effect cfg_example oracle_denied Absent).
  left. reflexivity.
Defined.

Lemma C9_witness :
  NotificationManager.send_telegram (NotificationManager.mk true) cfg_group
    alice None (start Absent) = (start Absent, inr tt).
Proof.
  refine (proj1 (C9_chat_id_must_be_digits (NotificationManager.mk true) cfg_group
                   alice None (start Absent) _) _).
  - intros s [= <-]. reflexivity.
  - right. exists "-1001234567890", "-"%char.
    split; [reflexivity|]. split; [|reflexivity].
    simpl. apply list_elem_of_here.
Defined.

Lemma C10_witness :
  build_submission ["A"; "B"] ["x"; "y"; "z"]
  = build_submission ["A"; "B"] (take (length ["A"; "B"]) ["x"; "y"; "z"]) ∧
  dom (build_submission ["A"; "B"] ["x"; "y"; "z"]) = list_to_set ["A"; "B"] ∧
  ∀ name v, build_submission ["A"; "B"] ["x"; "y"; "z"] !! name = Some v →
    ∃ j, (j < length ["A"; "B"])%nat ∧ ["A"; "B"] !! j = Some name ∧
         ["x"; "y"; "z"] !! j = Some v ∧
         ∀ j', (j < j')%nat → ["A"; "B"] !! j' ≠ Some name.
Proof.
  apply (C10_extra_cells_dropped ["A"; "B"] ["x"; "y"; "z"]). simpl. lia.
Defined.

(** * Further properties of the code *)

(** ** Traces, exactly *)

Lemma run_exact {A} (m : M A) (d : A) :
  (∃ a evs, ∀ w, m w = (extend w evs, inr a)) →
  ∀ w, m w = (extend w (events_of m), inr (value_of d m)).
Proof.
  intros (a & evs & Hm) w. unfold events_of, value_of.
  rewrite (Hm w), (Hm (start Absent)). reflexivity.
Qed.

Lemma save_lead_exact db submission r w :
  DatabaseManager.save_lead db submission r w
  = (extend w (events_of (DatabaseManager.save_lead db submission r)), inr tt).
Proof.
  destruct (save_lead_run db submission r) as (evs & _ & Hm).
  rewrite (run_exact _ tt) by eauto. f_equal.
  unfold value_of. by rewrite Hm.
Qed.

Lemma send_telegram_exact notifier cfg submission r w :
  NotificationManager.send_telegram notifier cfg submission r w
  = (extend w (events_of (NotificationManager.send_telegram notifier cfg submission r)),
     inr tt).
Proof.
  destruct (send_telegram_run notifier cfg submission r) as (evs & _ & Hm).
  rewrite (run_exact _ tt) by eauto. f_equal.
  unfold value_of. by rewrite Hm.
Qed.

Lemma send_email_exact cfg submission rc rl rs w :
  NotificationManager.send_email cfg submission rc rl rs w
  = (extend w (events_of (NotificationManager.send_email cfg submission rc rl rs)),
     inr tt).
Proof.
  destruct (send_email_run cfg submission rc rl rs) as (evs & _ & Hm).
  rewrite (run_exact _ tt) by eauto. f_equal.
  unfold value_of. by rewrite Hm.
Qed.

(** The loop adds the events of its rows, one row after the other, and
    counts every row. *)
Lemma process_rows_exact db notifier cfg headers results rows :
  ∀ i processed_count w,
    process_rows db notifier cfg headers results i rows processed_count w
    = (extend w (rows_events db notifier cfg headers results i rows),
       inr (processed_count + length rows)%nat).
Proof.
  induction rows as [|row rest IH]; intros i processed_count w.
  - simpl. by rewrite extend_nil, Nat.add_0_r.
  - simpl process_rows. simpl rows_events. unfold row_events.
    set (submission := build_submission headers row).
    erewrite bind_inr.
    2:{ apply try_except_inr.
        erewrite bind_inr by reflexivity.
        erewrite bind_inr by apply save_lead_exact.
        erewrite bind_inr by apply send_telegram_exact.
        erewrite bind_inr by apply send_email_exact.
        reflexivity. }
    change {| file := file w; trace := trace w ++ [Built submission] |}
      with (extend w [Built submission]).
    rewrite IH, !extend_extend. do 2 f_equal.
    + by rewrite <- !app_assoc.
    + simpl. lia.
Qed.

(** The events of each collaborator method, in closed form. *)
Lemma save_lead_events db submission r :
  events_of (DatabaseManager.save_lead db submission r)
  = if DatabaseManager.connection db then [Called (DbInsert submission) r] else [].
Proof. destruct db as [[]], r as [[]|]; reflexivity. Qed.

Lemma send_telegram_events notifier cfg submission r :
  events_of (NotificationManager.send_telegram notifier cfg submission r)
  = match get_telegram_chat_id cfg with
    | Some chat_id =>
        if NotificationManager.telegram_bot notifier && isdigit chat_id
        then match int chat_id with
             | Some chat => [Called (TgSendMessage chat submission) r]
             | None => []
             end
        else []
    | None => []
    end.
Proof.
  unfold events_of, NotificationManager.send_telegram, NotificationManager._send.
  destruct notifier as [[]]; simpl; [|by destruct (get_telegram_chat_id cfg)].
  destruct (get_telegram_chat_id cfg) as [chat_id|]; [|done].
  destruct (isdigit chat_id) eqn:Hd.
  - assert (truthy chat_id = true) as -> by (by apply andb_true_iff in Hd as [? _]).
    simpl. munfold. destruct (int chat_id) as [chat|]; [|done].
    by destruct r as [[]|].
  - by rewrite orb_true_r.
Qed.

Lemma db_of_connection cfg o :
  DatabaseManager.connection (db_of cfg o)
  = use_postgresql cfg && bool_decide (db_connect_result o = None).
Proof.
  unfold db_of, value_of, DatabaseManager.init, DatabaseManager.connect,
    DatabaseManager.create_table.
  destruct (use_postgresql cfg); [|done].
  destruct (db_connect_result o) as [e|]; [done|].
  by destruct (db_create_table_result o).
Qed.

Lemma notifier_of_bot cfg o :
  NotificationManager.telegram_bot (notifier_of cfg o)
  = truthy_opt (get_telegram_token cfg) && truthy_opt (get_telegram_chat_id cfg)
    && bool_decide (bot_result o = None).
Proof.
  unfold notifier_of, value_of, NotificationManager.init,
    NotificationManager.init_telegram.
  destruct (truthy_opt _ && truthy_opt _); [|done].
  by destruct (bot_result o).
Qed.

(** A cycle that finds new rows, with the events of its loop spelled out. *)
Lemma cycle_active_exact cfg o w (R : list Row) :
  fetched cfg o = Some R → R ≠ [] →
  stored_last_row (file w) (get_sheet_id cfg) (get_sheet_name cfg)
  < Z.of_nat (length R) →
  ∃ pre, Forall is_setup pre ∧
    process_submissions cfg o w
    = let st := <[StateManager.key (get_sheet_id cfg) (get_sheet_name cfg)
                  := Z.of_nat (length R)]> (stored (file w)) in
      (mkWorld (written (save_result o) st (file w))
         (trace w ++ pre
          ++ rows_events (db_of cfg o) (notifier_of cfg o) cfg (default [] (head R))
               (row_results o) 1
               (slice_from R (stored_last_row (file w) (get_sheet_id cfg)
                                (get_sheet_name cfg)))
          ++ [Called (WriteState st) (exn_of <$> save_result o)]),
       inr tt).
Proof.
  intros Hfetch Hne Hlt. unfold process_submissions.
  destruct (authenticate_result o) as [e|] eqn:Hauth.
  { by rewrite (fetched_None_of_authenticate cfg o e) in Hfetch. }
  destruct (db_init_run cfg (db_connect_result o) (db_create_table_result o))
    as (db & e1 & F1 & R1).
  assert (db = db_of cfg o) as ->.
  { unfold db_of, value_of. by rewrite R1. }
  destruct (notifier_init_run cfg (bot_result o)) as (notifier & R2).
  assert (notifier = notifier_of cfg o) as ->.
  { unfold notifier_of, value_of. by rewrite R2. }
  destruct (get_sheet_data_run cfg o Hauth) as (e3 & F3 & R3).
  rewrite Hfetch in R3.
  destruct R as [|headers rest]; [done|].
  set (W := stored_last_row (file w) (get_sheet_id cfg) (get_sheet_name cfg)) in *.
  exists (e1 ++ e3). split; [by apply Forall_app|].
  apply try_except_inr.
  erewrite bind_inr by apply init_stored.
  erewrite bind_inr by reflexivity.
  erewrite bind_inr by apply R1.
  erewrite bind_inr by apply R2.
  erewrite bind_inr by apply R3.
  rewrite extend_extend.
  assert (StateManager.get_last_row (StateManager.mk (stored (file w)))
            (get_sheet_id cfg) (get_sheet_name cfg) = W) as HW.
  { unfold W. by rewrite stored_last_row_lookup. }
  rewrite HW.
  apply Z.leb_gt in Hlt. rewrite Hlt.
  erewrite bind_inr by apply process_rows_exact.
  erewrite bind_inr by apply set_last_row_run.
  unfold ret, extend. simpl. by rewrite <- !app_assoc.
Qed.

(** ** What the loop leaves in the trace, channel by channel *)

Ltac email_cases cfg rc rl rs :=
  unfold events_of, NotificationManager.send_email;
  destruct (truthy (smtp_to (get_smtp_config cfg)));
  destruct (truthy (smtp_user (get_smtp_config cfg)));
  destruct (truthy (smtp_password (get_smtp_config cfg)));
  destruct rc as [?|], rl as [?|], rs as [?|]; reflexivity.

Lemma send_email_sessions cfg submission rc rl rs :
  smtp_sessions (events_of (NotificationManager.send_email cfg submission rc rl rs))
  = if truthy (smtp_to (get_smtp_config cfg)) then 1%nat else 0%nat.
Proof. email_cases cfg rc rl rs. Qed.

Lemma send_email_mailed cfg submission rc rl rs :
  mailed (events_of (NotificationManager.send_email cfg submission rc rl rs))
  = if truthy (smtp_to (get_smtp_config cfg))
       && bool_decide (rc = None)
       && (negb (truthy (smtp_user (get_smtp_config cfg))
                 && truthy (smtp_password (get_smtp_config cfg)))
           || bool_decide (rl = None))
       && bool_decide (rs = None)
    then [submission] else [].
Proof. email_cases cfg rc rl rs. Qed.

Lemma send_email_other cfg submission rc rl rs :
  let evs := events_of (NotificationManager.send_email cfg submission rc rl rs) in
  appended evs = [] ∧ leads evs = [] ∧ telegrams evs = [].
Proof. repeat split; email_cases cfg rc rl rs. Qed.

Lemma send_telegram_other notifier cfg submission r :
  let evs := events_of (NotificationManager.send_telegram notifier cfg submission r) in
  appended evs = [] ∧ leads evs = [] ∧ smtp_sessions evs = 0%nat ∧ mailed evs = [].
Proof.
  intros evs. unfold evs. rewrite send_telegram_events.
  destruct (get_telegram_chat_id cfg) as [chat_id|]; [|done].
  destruct (_ && _); [|done]. by destruct (int chat_id).
Qed.

Lemma send_telegram_telegrams notifier cfg submission r :
  telegrams (events_of (NotificationManager.send_telegram notifier cfg submission r))
  = match get_telegram_chat_id cfg with
    | Some chat_id =>
        if NotificationManager.telegram_bot notifier && isdigit chat_id
        then match int chat_id with
             | Some chat => [(chat, submission)]
             | None => []
             end
        else []
    | None => []
    end.
Proof.
  rewrite send_telegram_events.
  destruct (get_telegram_chat_id cfg) as [chat_id|]; [|done].
  destruct (_ && _); [|done]. by destruct (int chat_id).
Qed.

Lemma save_lead_other db submission r :
  let evs := events_of (DatabaseManager.save_lead db submission r) in
  telegrams evs = [] ∧ smtp_sessions evs = 0%nat ∧ mailed evs = [].
Proof.
  intros evs. unfold evs. rewrite save_lead_events.
  by destruct (DatabaseManager.connection db).
Qed.

Lemma appended_app t1 t2 : appended (t1 ++ t2) = appended t1 ++ appended t2.
Proof. apply omap_app. Qed.

Lemma leads_app t1 t2 : leads (t1 ++ t2) = leads t1 ++ leads t2.
Proof. apply omap_app. Qed.

Lemma telegrams_app t1 t2 : telegrams (t1 ++ t2) = telegrams t1 ++ telegrams t2.
Proof. apply omap_app. Qed.

Lemma mailed_app t1 t2 : mailed (t1 ++ t2) = mailed t1 ++ mailed t2.
Proof. apply omap_app. Qed.

Lemma smtp_sessions_app t1 t2 :
  smtp_sessions (t1 ++ t2) = (smtp_sessions t1 + smtp_sessions t2)%nat.
Proof. unfold smtp_sessions. by rewrite filter_app, length_app. Qed.

(** Set-up events count for no channel. *)
Lemma setup_other evs :
  Forall is_setup evs →
  appended evs = [] ∧ leads evs = [] ∧ telegrams evs = [] ∧
  smtp_sessions evs = 0%nat ∧ mailed evs = [].
Proof.
  induction 1 as [|ev evs Hev _ IH]; [done|].
  by destruct ev as [|[] ?].
Qed.

Section RowsEvents.
Variables (db : DatabaseManager.t) (notifier : NotificationManager.t)
          (cfg : Config) (headers : Row) (results : nat → RowOracle).

Let subs (rows : list Row) : list Submission := build_submission headers <$> rows.

Lemma built_rows_events rows i :
  built (rows_events db notifier cfg headers results i rows) = subs rows.
Proof.
  revert i. induction rows as [|row rest IH]; intros i; [done|].
  simpl. unfold row_events.
  destruct (save_lead_run db (build_submission headers row)
              (insert_result (results i))) as (e1 & F1 & R1).
  rewrite !built_app, IH. cbn [built omap list_omap app].
  rewrite save_lead_events, send_telegram_events.
  assert (built (events_of (NotificationManager.send_email cfg
            (build_submission headers row) (smtp_connect_result (results i))
            (smtp_login_result (results i)) (smtp_send_result (results i)))) = [])
    as ->.
  { email_cases cfg (smtp_connect_result (results i))
      (smtp_login_result (results i)) (smtp_send_result (results i)). }
  destruct (DatabaseManager.connection db);
    destruct (get_telegram_chat_id cfg) as [c|]; try destruct (_ && _);
    try destruct (int c); done.
Qed.

Lemma appended_rows_events rows i :
  appended (rows_events db notifier cfg headers results i rows)
  = if DatabaseManager.connection db then subs rows else [].
Proof.
  revert i. induction rows as [|row rest IH]; intros i.
  { by destruct (DatabaseManager.connection db). }
  simpl. unfold row_events. rewrite !appended_app, IH.
  destruct (send_telegram_other notifier cfg (build_submission headers row)
              (telegram_result (results i))) as (-> & _).
  destruct (send_email_other cfg (build_submission headers row)
              (smtp_connect_result (results i)) (smtp_login_result (results i))
              (smtp_send_result (results i))) as (-> & _).
  rewrite save_lead_events.
  by destruct (DatabaseManager.connection db).
Qed.

Lemma leads_rows_events rows i :
  leads (rows_events db notifier cfg headers results i rows)
  = if DatabaseManager.connection db
    then select (λ i, bool_decide (insert_result (results i) = None)) i (subs rows)
    else [].
Proof.
  revert i. induction rows as [|row rest IH]; intros i.
  { by destruct (DatabaseManager.connection db). }
  simpl. unfold row_events. rewrite !leads_app, IH.
  destruct (send_telegram_other notifier cfg (build_submission headers row)
              (telegram_result (results i))) as (_ & -> & _).
  destruct (send_email_other cfg (build_submission headers row)
              (smtp_connect_result (results i)) (smtp_login_result (results i))
              (smtp_send_result (results i))) as (_ & -> & _).
  rewrite save_lead_events.
  destruct (DatabaseManager.connection db); [|done].
  by destruct (insert_result (results i)).
Qed.

Lemma telegrams_rows_events rows i :
  telegrams (rows_events db notifier cfg headers results i rows)
  = match get_telegram_chat_id cfg with
    | Some chat_id =>
        if NotificationManager.telegram_bot notifier && isdigit chat_id
        then match int chat_id with
             | Some chat => (λ s, (chat, s)) <$> subs rows
             | None => []
             end
        else []
    | None => []
    end.
Proof.
  revert i. induction rows as [|row rest IH]; intros i.
  { destruct (get_telegram_chat_id cfg) as [chat_id|]; [|done].
    destruct (_ && _); [|done]. by destruct (int chat_id). }
  simpl. unfold row_events. rewrite !telegrams_app, IH.
  destruct (save_lead_other db (build_submission headers row)
              (insert_result (results i))) as (-> & _).
  destruct (send_email_other cfg (build_submission headers row)
              (smtp_connect_result (results i)) (smtp_login_result (results i))
              (smtp_send_result (results i))) as (_ & _ & ->).
  rewrite send_telegram_telegrams.
  destruct (get_telegram_chat_id cfg) as [chat_id|]; [|done].
  destruct (_ && _); [|done]. by destruct (int chat_id).
Qed.

Lemma smtp_sessions_rows_events rows i :
  smtp_sessions (rows_events db notifier cfg headers results i rows)
  = if truthy (smtp_to (get_smtp_config cfg)) then length rows else 0%nat.
Proof.
  revert i. induction rows as [|row rest IH]; intros i.
  { by destruct (truthy _). }
  cbn [rows_events]. unfold row_events. rewrite !smtp_sessions_app, IH.
  destruct (save_lead_other db (build_submission headers row)
              (insert_result (results i))) as (_ & -> & _).
  destruct (send_telegram_other notifier cfg (build_submission headers row)
              (telegram_result (results i))) as (_ & _ & -> & _).
  rewrite send_email_sessions.
  destruct (truthy _); reflexivity.
Qed.

Lemma mailed_rows_events rows i :
  mailed (rows_events db notifier cfg headers results i rows)
  = if truthy (smtp_to (get_smtp_config cfg))
    then select
           (λ i, bool_decide (smtp_connect_result (results i) = None)
                 && (negb (truthy (smtp_user (get_smtp_config cfg))
                           && truthy (smtp_password (get_smtp_config cfg)))
                     || bool_decide (smtp_login_result (results i) = None))
                 && bool_decide (smtp_send_result (results i) = None))
           i (subs rows)
    else [].
Proof.
  revert i. induction rows as [|row rest IH]; intros i.
  { by destruct (truthy _). }
  simpl. unfold row_events. rewrite !mailed_app, IH.
  destruct (save_lead_other db (build_submission headers row)
              (insert_result (results i))) as (_ & _ & ->).
  destruct (send_telegram_other notifier cfg (build_submission headers row)
              (telegram_result (results i))) as (_ & _ & _ & ->).
  rewrite send_email_mailed.
  by destruct (truthy (smtp_to _)).
Qed.
End RowsEvents.

(** The trace and the file of a cycle that finds new rows, from a fresh
    start. *)
Lemma cycle_trace cfg o f (R : list Row) (W : nat) :
  fetched cfg o = Some R →
  stored_last_row f (get_sheet_id cfg) (get_sheet_name cfg) = Z.of_nat W →
  (W < length R)%nat →
  ∃ pre st, Forall is_setup pre ∧
    st = <[StateManager.key (get_sheet_id cfg) (get_sheet_name cfg)
           := Z.of_nat (length R)]> (stored f) ∧
    trace (cycle cfg o f)
    = pre
      ++ rows_events (db_of cfg o) (notifier_of cfg o) cfg (default [] (head R))
           (row_results o) 1 (drop W R)
      ++ [Called (WriteState st) (exn_of <$> save_result o)] ∧
    file (cycle cfg o f)
    = written (save_result o) st f.
Proof.
  intros Hfetch HW Hlt.
  assert (R ≠ []) as Hne by (intros ->; simpl in Hlt; lia).
  destruct (cycle_active_exact cfg o (start f) R Hfetch Hne) as (pre & Fpre & Hrun).
  { simpl. rewrite HW. lia. }
  simpl in Hrun. rewrite HW, slice_from_nat in Hrun.
  unfold cycle. rewrite Hrun. simpl. eauto 10.
Qed.

(** What such a cycle builds and stores. *)
Lemma cycle_new_rows cfg o f (R : list Row) (W : nat) :
  fetched cfg o = Some R →
  stored_last_row f (get_sheet_id cfg) (get_sheet_name cfg) = Z.of_nat W →
  (W < length R)%nat →
  built (trace (cycle cfg o f))
  = build_submission (default [] (head R)) <$> drop W R ∧
  (save_result o = None →
   stored_last_row (file (cycle cfg o f)) (get_sheet_id cfg) (get_sheet_name cfg)
   = Z.of_nat (length R)).
Proof.
  intros Hfetch HW Hlt.
  destruct (cycle_trace cfg o f R W Hfetch HW Hlt)
    as (pre & st & Fpre & -> & -> & ->).
  split.
  - rewrite !built_app, (built_setup pre Fpre), built_rows_events.
    simpl. by rewrite app_nil_r.
  - intros ->. apply stored_last_row_insert.
Qed.

Lemma write_other st r :
  appended [Called (WriteState st) r] = [] ∧ leads [Called (WriteState st) r] = [] ∧
  telegrams [Called (WriteState st) r] = [] ∧
  smtp_sessions [Called (WriteState st) r] = 0%nat ∧
  mailed [Called (WriteState st) r] = [].
Proof. by destruct r. Qed.

(** ** The lead sink in a cycle *)

(** X1. With PostgreSQL switched on and the connection made, a cycle that finds
    new rows attempts one INSERT per new row, in order, whatever CREATE
    TABLE answered and whatever failed for other rows; the leads stored are
    those of the rows whose INSERT returned. *)
Theorem sink_one_insert_per_row cfg o f (R : list Row) (W : nat) :
  fetched cfg o = Some R →
  stored_last_row f (get_sheet_id cfg) (get_sheet_name cfg) = Z.of_nat W →
  (W < length R)%nat →
  use_postgresql cfg = true →
  db_connect_result o = None →
  let t := trace (cycle cfg o f) in
  let subs := build_submission (default [] (head R)) <$> drop W R in
  appended t = subs ∧
  leads t = select (λ i, bool_decide (insert_result (row_results o i) = None)) 1 subs.
Proof.
  intros Hfetch HW Hlt Hpg Hconn t subs.
  destruct (cycle_trace cfg o f R W Hfetch HW Hlt) as (pre & st & Fpre & _ & Ht & _).
  unfold t. rewrite Ht.
  destruct (setup_other pre Fpre) as (Ha & Hl & _).
  destruct (write_other st (exn_of <$> save_result o)) as (Ha' & Hl' & _).
  rewrite !appended_app, !leads_app, Ha, Hl, Ha', Hl', !app_nil_r.
  rewrite appended_rows_events, leads_rows_events, db_of_connection, Hpg, Hconn.
  done.
Qed.

(** X2. With PostgreSQL switched off, or when the connection cannot be made,
    the same cycle attempts no INSERT at all, yet it builds every
    submission and, its write succeeding, moves the watermark to len(R):
    the rows are consumed and never stored. *)
Theorem sink_unavailable_rows_consumed cfg o f (R : list Row) (W : nat) :
  fetched cfg o = Some R →
  stored_last_row f (get_sheet_id cfg) (get_sheet_name cfg) = Z.of_nat W →
  (W < length R)%nat →
  use_postgresql cfg = false ∨ db_connect_result o ≠ None →
  let w := cycle cfg o f in
  appended (trace w) = [] ∧
  length (built (trace w)) = (length R - W)%nat ∧
  (save_result o = None →
   stored_last_row (file w) (get_sheet_id cfg) (get_sheet_name cfg)
   = Z.of_nat (length R)).
Proof.
  intros Hfetch HW Hlt Hoff w.
  destruct (cycle_new_rows cfg o f R W Hfetch HW Hlt) as (Hbuilt & Hsaved).
  split; [|split; [|done]].
  2:{ unfold w. by rewrite Hbuilt, length_fmap, length_drop. }
  destruct (cycle_trace cfg o f R W Hfetch HW Hlt) as (pre & st & Fpre & _ & Ht & _).
  unfold w. rewrite Ht.
  destruct (setup_other pre Fpre) as (Ha & _).
  destruct (write_other st (exn_of <$> save_result o)) as (Ha' & _).
  rewrite !appended_app, Ha, Ha', !app_nil_r.
  rewrite appended_rows_events, db_of_connection.
  destruct Hoff as [->|Hfail]; [done|].
  rewrite (bool_decide_eq_false_2 _ Hfail). by rewrite andb_false_r.
Qed.

(** ** The notifier in a cycle *)

(** X3. For a chat id of ASCII characters: a cycle that finds new rows sends
    one Telegram message per new row, in order and to [int(chat_id)],
    exactly when the token is set, [Bot()] was built and the chat id is a
    string of digits that [int] takes (at most 4300 of them); otherwise it
    sends none.  Failed sends, failed INSERTs and failed mails change
    nothing to it. *)
Theorem telegram_one_send_per_row cfg o f (R : list Row) (W : nat) :
  (∀ chat_id, get_telegram_chat_id cfg = Some chat_id → ascii_text chat_id = true) →
  fetched cfg o = Some R →
  stored_last_row f (get_sheet_id cfg) (get_sheet_name cfg) = Z.of_nat W →
  (W < length R)%nat →
  let subs := build_submission (default [] (head R)) <$> drop W R in
  telegrams (trace (cycle cfg o f))
  = match get_telegram_chat_id cfg with
    | Some chat_id =>
        if truthy_opt (get_telegram_token cfg) && bool_decide (bot_result o = None)
           && isdigit chat_id
        then match int chat_id with
             | Some chat => (λ s, (chat, s)) <$> subs
             | None => []
             end
        else []
    | None => []
    end.
Proof.
  intros _ Hfetch HW Hlt subs.
  destruct (cycle_trace cfg o f R W Hfetch HW Hlt) as (pre & st & Fpre & _ & -> & _).
  destruct (setup_other pre Fpre) as (_ & _ & Ht & _).
  destruct (write_other st (exn_of <$> save_result o)) as (_ & _ & Ht' & _).
  rewrite !telegrams_app, Ht, Ht', app_nil_r. simpl.
  rewrite telegrams_rows_events, notifier_of_bot.
  destruct (get_telegram_chat_id cfg) as [chat_id|]; [|done]. simpl.
  destruct (isdigit chat_id) eqn:Hd.
  - assert (truthy chat_id = true) as -> by (by apply andb_true_iff in Hd as [? _]).
    by rewrite !andb_true_r.
  - by rewrite !andb_false_r.
Qed.

(** X4. A cycle that finds new rows opens one SMTP session per new row when a
    recipient is configured and none otherwise; the mails handed over are
    those of the rows whose session connected, logged in (when user and
    password are both set) and sent. INSERT and Telegram results play no
    part. *)
Theorem email_one_session_per_row cfg o f (R : list Row) (W : nat) :
  fetched cfg o = Some R →
  stored_last_row f (get_sheet_id cfg) (get_sheet_name cfg) = Z.of_nat W →
  (W < length R)%nat →
  let t := trace (cycle cfg o f) in
  let subs := build_submission (default [] (head R)) <$> drop W R in
  let smtp := get_smtp_config cfg in
  smtp_sessions t = (if truthy (smtp_to smtp) then length R - W else 0)%nat ∧
  mailed t
  = if truthy (smtp_to smtp)
    then select
           (λ i, bool_decide (smtp_connect_result (row_results o i) = None)
                 && (negb (truthy (smtp_user smtp) && truthy (smtp_password smtp))
                     || bool_decide (smtp_login_result (row_results o i) = None))
                 && bool_decide (smtp_send_result (row_results o i) = None))
           1 subs
    else [].
Proof.
  intros Hfetch HW Hlt t subs smtp.
  destruct (cycle_trace cfg o f R W Hfetch HW Hlt) as (pre & st & Fpre & _ & Ht & _).
  unfold t. rewrite Ht.
  destruct (setup_other pre Fpre) as (_ & _ & _ & Hs & Hm).
  destruct (write_other st (exn_of <$> save_result o)) as (_ & _ & _ & Hs' & Hm').
  rewrite !smtp_sessions_app, !mailed_app, Hs, Hm, Hs', Hm', app_nil_r.
  rewrite smtp_sessions_rows_events, mailed_rows_events, length_drop.
  fold smtp. destruct (truthy (smtp_to smtp)); split; simpl; done || lia.
Qed.

(** ** The loop and its counter *)

(** X5. The loop never raises and never touches the state file, and its
    counter ends at the number of new rows whatever failed: the handler of
    line 426 is never entered, a failed row is counted as processed. *)
Theorem process_rows_counts_every_row db notifier cfg headers results rows w :
  ∃ w', process_rows db notifier cfg headers results 1 rows 0 w
        = (w', inr (length rows)) ∧
        file w' = file w ∧
        built (trace w') = built (trace w) ++ (build_submission headers <$> rows).
Proof.
  eexists. split; [apply process_rows_exact|]. split; [done|].
  simpl. by rewrite built_app, built_rows_events.
Qed.

(** ** The row source *)

(** X6. [get_sheet_data] never raises; it returns [None] exactly when the sheet
    id is empty or the API call raises, and it calls the API once, or not
    at all when the sheet id is empty. A result without ['values'] is the
    empty list, not [None]. *)
Theorem get_sheet_data_result self cfg response w :
  ∃ evs data,
    GoogleSheetsManager.get_sheet_data self cfg response w = (extend w evs, inr data) ∧
    (data = None ↔ get_sheet_id cfg = "" ∨ ∃ e, response = ApiRaises e) ∧
    (response = ApiResult None → get_sheet_id cfg ≠ "" → data = Some []) ∧
    evs = if bool_decide (get_sheet_id cfg = "") then []
          else [Called (SheetsGet (get_sheet_id cfg) (get_sheet_name cfg))
                       (match response with ApiRaises e => Some e | _ => None end)].
Proof.
  unfold GoogleSheetsManager.get_sheet_data, GoogleSheetsManager.execute, truthy.
  destruct (decide (get_sheet_id cfg = "")) as [Hid|Hid].
  - rewrite (bool_decide_eq_true_2 _ Hid). simpl.
    exists [], None. rewrite extend_nil. munfold. simpl.
    repeat split; auto. intros _ ?. done.
  - rewrite (bool_decide_eq_false_2 _ Hid). simpl.
    destruct response as [e|values].
    + exists [Called (SheetsGet (get_sheet_id cfg) (get_sheet_name cfg)) (Some e)], None.
      split; [munfold; by destruct e|].
      repeat split; eauto. intros [=].
    + eexists _, (Some (default [] values)).
      split; [munfold; simpl; reflexivity|].
      split; [|split; [|done]].
      * split; [done|]. intros [?|[e [=]]]. done.
      * intros [= ->] _. done.
Qed.

(** ** The watermark store, further *)

Lemma key_cons c (sheet_id sheet_name : string) :
  StateManager.key (String c sheet_id) sheet_name
  = String c (StateManager.key sheet_id sheet_name).
Proof. reflexivity. Qed.

Lemma key_nil (sheet_name : string) :
  StateManager.key "" sheet_name = String ":" sheet_name.
Proof. reflexivity. Qed.

(** X7. Two (sheet id, sheet name) pairs share a key only when they are equal,
    provided no sheet id contains a colon. *)
Theorem key_injective (id1 name1 id2 name2 : string) :
  ":"%char ∉ chars id1 → ":"%char ∉ chars id2 →
  StateManager.key id1 name1 = StateManager.key id2 name2 →
  id1 = id2 ∧ name1 = name2.
Proof.
  revert id2. induction id1 as [|c1 id1 IH]; intros [|c2 id2] H1 H2 Hkey.
  - rewrite !key_nil in Hkey. by injection Hkey.
  - rewrite key_nil, key_cons in Hkey. injection Hkey as <- _.
    exfalso. apply H2. simpl. apply list_elem_of_here.
  - rewrite key_nil, key_cons in Hkey. injection Hkey as -> _.
    exfalso. apply H1. simpl. apply list_elem_of_here.
  - rewrite !key_cons in Hkey. injection Hkey as -> Hkey.
    simpl in H1, H2. apply not_elem_of_cons in H1 as [_ H1].
    apply not_elem_of_cons in H2 as [_ H2].
    destruct (IH id2 H1 H2 Hkey) as [-> ->]. done.
Qed.

(** With a colon in a sheet id, distinct pairs can share a watermark. *)
Example key_collision :
  StateManager.key "a:b" "c" = StateManager.key "a" "b:c".
Proof. reflexivity. Qed.


(** ** Runs of cycles whose fetches and writes succeed *)







(** ** The environment check and [main] *)


Lemma check_environment_cases env path_exists w :
  check_environment env path_exists w
  = (w, inr (truthy_opt (env !! "GOOGLE_SHEET_ID")
             && match env !! "GOOGLE_APPLICATION_CREDENTIALS" with
                | Some path => truthy path && path_exists path
                | None => false
                end)).
Proof.
  unfold check_environment, required. rewrite !filter_cons, filter_nil.
  destruct (env !! "GOOGLE_SHEET_ID") as [sheet|];
    destruct (env !! "GOOGLE_APPLICATION_CREDENTIALS") as [path|]; simpl;
    repeat case_decide; simpl; try done;
    repeat match goal with
    | H : truthy ?s = false |- _ => rewrite H in *
    | H : truthy ?s ≠ false |- _ => apply not_false_is_true in H; rewrite H in *
    end; simpl; try done.
  all: by destruct (path_exists path).
Qed.

(** X11. [check_environment] never raises and leaves the world as it was; it
    answers [True] exactly when both required variables are set to
    non-empty text and the credentials path exists. *)
Theorem check_environment_result env path_exists w :
  ∃ ok,
    check_environment env path_exists w = (w, inr ok) ∧
    (ok = true ↔
     ∃ sheet path,
       env !! "GOOGLE_SHEET_ID" = Some sheet ∧ sheet ≠ "" ∧
       env !! "GOOGLE_APPLICATION_CREDENTIALS" = Some path ∧ path ≠ "" ∧
       path_exists path = true).
Proof.
  eexists. split; [apply check_environment_cases|].
  unfold truthy_opt, truthy. split.
  - destruct (env !! "GOOGLE_SHEET_ID") as [sheet|]; [|done].
    destruct (env !! "GOOGLE_APPLICATION_CREDENTIALS") as [path|];
      [|by rewrite andb_false_r].
    rewrite !andb_true_iff, !negb_true_iff, !bool_decide_eq_false.
    intros (Hs & Hp & He). by exists sheet, path.
  - intros (sheet & path & -> & Hs & -> & Hp & He).
    rewrite He, !bool_decide_eq_false_2 by done. done.
Qed.

(** X12. [main] stops before the first cycle, with the world untouched and a
    result other than exit status 0, when [SMTP_PORT] is not a number, when
    a required variable is unset or empty, when the credentials file does
    not exist, or when [CHECK_INTERVAL] is not a number. *)
Theorem main_stops_before_any_cycle py_int env path_exists first ticks stop w :
  py_int (getenv env "SMTP_PORT" "25") = None ∨
  truthy_opt (env !! "GOOGLE_SHEET_ID") = false ∨
  truthy_opt (env !! "GOOGLE_APPLICATION_CREDENTIALS") = false ∨
  (∃ path, env !! "GOOGLE_APPLICATION_CREDENTIALS" = Some path ∧
           path_exists path = false) ∨
  py_int (getenv env "CHECK_INTERVAL" "30") = None →
  ∃ r, main py_int env path_exists first ticks stop w = (w, r) ∧ r ≠ inr 0.
Proof.
  intros H. unfold main.
  destruct (py_int (getenv env "SMTP_PORT" "25")) as [port|];
    [|by eexists; split; [reflexivity|]].
  pose proof (check_environment_cases env path_exists w) as Hc.
  match type of Hc with _ = (_, inr ?b) => destruct b eqn:Hok end.
  - erewrite bind_inr by exact Hc. simpl.
    apply andb_true_iff in Hok as [Hs Hp].
    destruct H as [H|[H|[H|[H|H]]]]; [done|congruence| | |].
    + destruct (env !! "GOOGLE_APPLICATION_CREDENTIALS") as [path|]; [|done].
      apply andb_true_iff in Hp as [Hp _]. simpl in H. congruence.
    + destruct H as (path & Hpath & He). rewrite Hpath in Hp.
      apply andb_true_iff in Hp as [_ Hp]. congruence.
    + rewrite H. by eexists; split; [reflexivity|].
  - erewrite bind_inr by exact Hc. simpl.
    by eexists; split; [reflexivity|].
Qed.


(** ** Opening the database *)

(** X14. [DatabaseManager()] never raises. It connects only when PostgreSQL is
    switched on, creates the table only on a live connection, and the
    connection is kept when creating the table fails. *)
Theorem database_init_result cfg connect_result create_result w :
  ∃ db,
    DatabaseManager.init cfg connect_result create_result w
    = (extend w
         (if use_postgresql cfg
          then Called DbConnect connect_result
               :: (if bool_decide (connect_result = None)
                   then [Called DbCreateTable create_result] else [])
          else []),
       inr db) ∧
    DatabaseManager.connection db
    = use_postgresql cfg && bool_decide (connect_result = None).
Proof.
  unfold DatabaseManager.init, DatabaseManager.connect, DatabaseManager.create_table.
  destruct (use_postgresql cfg).
  - destruct connect_result as [e|]; [|destruct create_result as [e|]];
      eexists; (split; [munfold; simpl; rewrite <- ?app_assoc; reflexivity|done]).
  - exists (DatabaseManager.mk false). by rewrite extend_nil.
Qed.

(** ** The further properties on the running example *)

Lemma sink_one_insert_per_row_witness :
  let t := trace (cycle cfg_example oracle_first_insert_fails Absent) in
  let subs := build_submission (default [] (head rows_example)) <$> drop 1 rows_example in
  appended t = subs ∧
  leads t
  = select (λ i, bool_decide
                   (insert_result (row_results oracle_first_insert_fails i) = None))
      1 subs.
Proof.
  apply (sink_one_insert_per_row cfg_example oracle_first_insert_fails Absent
           rows_example 1%nat);
    [reflexivity|reflexivity|simpl; lia|reflexivity|reflexivity].
Defined.

Lemma sink_unavailable_rows_consumed_witness :
  let w := cycle cfg_example oracle_db_down Absent in
  appended (trace w) = [] ∧
  length (built (trace w)) = (length rows_example - 1)%nat ∧
  (save_result oracle_db_down = None →
   stored_last_row (file w) "sheet1" "Form Responses 1"
   = Z.of_nat (length rows_example)).
Proof.
  apply (sink_unavailable_rows_consumed cfg_example oracle_db_down Absent
           rows_example 1%nat); [reflexivity|reflexivity|simpl; lia|].
  right. simpl. discriminate.
Defined.

Lemma telegram_one_send_per_row_witness :
  telegrams (trace (cycle cfg_example oracle_ok Absent))
  = if truthy_opt (Some "token") && bool_decide (bot_result oracle_ok = None)
       && isdigit "12345"
    then match int "12345" with
         | Some chat =>
             (λ s, (chat, s))
             <$> (build_submission (default [] (head rows_example))
                  <$> drop 1 rows_example)
         | None => []
         end
    else [].
Proof.
  apply (telegram_one_send_per_row cfg_example oracle_ok Absent rows_example 1%nat);
    [|reflexivity|reflexivity|simpl; lia].
  intros chat_id [= <-]. reflexivity.
Defined.

Lemma email_one_session_per_row_witness :
  let t := trace (cycle cfg_example oracle_ok Absent) in
  let subs := build_submission (default [] (head rows_example)) <$> drop 1 rows_example in
  let smtp := get_smtp_config cfg_example in
  smtp_sessions t = (if truthy (smtp_to smtp) then length rows_example - 1 else 0)%nat ∧
  mailed t
  = if truthy (smtp_to smtp)
    then select
           (λ i, bool_decide (smtp_connect_result (row_results oracle_ok i) = None)
                 && (negb (truthy (smtp_user smtp) && truthy (smtp_password smtp))
                     || bool_decide (smtp_login_result (row_results oracle_ok i) = None))
                 && bool_decide (smtp_send_result (row_results oracle_ok i) = None))
           1 subs
    else [].
Proof.
  apply (email_one_session_per_row cfg_example oracle_ok Absent rows_example 1%nat);
    [reflexivity|reflexivity|simpl; lia].
Defined.

Lemma key_injective_witness :
  "sheet1" = "sheet1" ∧ "Form Responses 1" = "Form Responses 1".
Proof.
  apply (key_injective "sheet1" "Form Responses 1" "sheet1" "Form Responses 1");
    [vm_compute; set_solver|vm_compute; set_solver|reflexivity].
Defined.



Lemma main_stops_before_any_cycle_witness :
  ∃ r, main int_of_digits ∅ (λ _, true) oracle_ok [oracle_grown] KeyboardInterrupt
         (start Absent) = (start Absent, r) ∧ r ≠ inr 0.
Proof.
  apply (main_stops_before_any_cycle int_of_digits ∅ (λ _, true) oracle_ok
           [oracle_grown] KeyboardInterrupt (start Absent)).
  right. left. reflexivity.
Defined.

